(** * scytale2parodus: the HTTP/JSON to WRP gateway, embedded and verified

    The development follows the two Go sources of the repository:

    - [scytale2parodus.go]: [deviceIdRegex], [RpcRequest], [DeviceServer] and
      [PostCallHandler];
    - [main.go]: [rateLimitMiddleware], [metricsMiddleware] and the
      status-capturing [responseWriter].

    The Go packages the handler calls are modelled first: [strconv] and
    [encoding/json] as far as decoding a request body into a
    [map[string]any] needs them, [regexp] for the one pattern in use,
    [net/http] at the level of the [ResponseWriter] interface.  The
    serialisers ([json.Marshal], the WRP codec) and the outbound transport
    are parameters of the handler: every theorem holds for all of them. *)

From Stdlib Require Import ZArith NArith String Ascii Bool Lia DecimalString.
From Corelib Require Import SpecFloat.
From stdpp Require Import base option strings gmap list.

#[local] Set Warnings "-register-all".
#[local] Open Scope string_scope.

(** Go's [[]byte] and [string] are both byte sequences; 8-bit [ascii]
    characters are the bytes. *)
Abbreviation bytes := string (only parsing).

Definition byte_of (n : N) : ascii := ascii_of_N n.
Definition code (c : ascii) : N := N_of_ascii c.
Definition in_range (lo hi : N) (c : ascii) : bool :=
  ((lo <=? code c) && (code c <=? hi))%N.

Definition dquote : ascii := "034"%char.
Definition backslash : ascii := "092"%char.

(** A quoted JSON string token around raw contents, to write bodies with. *)
Definition quoted (s : string) : string :=
  String dquote (s ++ String dquote "").

(** ** strconv: decimal literals to float64 *)
Module strconv.

(** IEEE 754 binary64, as the specification floats of the standard
    library: 53 bits of precision, infinities at exponent 1024. *)
Definition float64 : Type := spec_float.
Definition prec : Z := 53.
Definition emax : Z := 1024.

Definition is_digit (c : ascii) : bool := in_range 48 57 c.
Definition digit_value (c : ascii) : Z := Z.of_N (code c) - 48.

(** Longest prefix of decimal digits, and what follows it. *)
Fixpoint span_digits (s : string) : string * string :=
  match s with
  | String c rest =>
      if is_digit c
      then let '(ds, tl) := span_digits rest in (String c ds, tl)
      else ("", s)
  | EmptyString => ("", "")
  end.

Fixpoint digits_to_Z (acc : Z) (ds : string) : Z :=
  match ds with
  | String c rest => digits_to_Z (10 * acc + digit_value c) rest
  | EmptyString => acc
  end.

Definition strip_sign (s : string) : bool * string :=
  match s with
  | String "-" rest => (true, rest)
  | String "+" rest => (false, rest)
  | _ => (false, s)
  end.

(** The float nearest to [(-1)^neg * m * 10^e], ties to even.  For a
    negative exponent the quotient is taken with 64 guard bits and the
    remainder becomes the rounding location. *)
Definition round_decimal (neg : bool) (m e : Z) : float64 :=
  match m with
  | Zpos p =>
      if (0 <=? e)%Z
      then binary_normalize prec emax
             (if neg then Z.neg p * 10 ^ e else Z.pos p * 10 ^ e)%Z 0 neg
      else
        let d := (10 ^ (- e))%Z in
        let k := (64 + Zdigits2 d)%Z in
        let '(q, r) := Z.div_eucl (Z.shiftl (Z.pos p) k) d in
        binary_round_aux prec emax neg q (- k) (new_location d r)
  | _ => S754_zero neg
  end.

Inductive NumError := ErrSyntax | ErrRange.

(** [ParseFloat(s, 64)] on decimal literals: sign, digits, optional
    fraction, optional exponent.  A value that rounds to an infinity is
    [ErrRange]; a value that rounds to zero is not an error. *)
Definition ParseFloat (s : string) : NumError + float64 :=
  let '(neg, s) := strip_sign s in
  let '(ip, s) := span_digits s in
  let '(fp, s) :=
    match s with
    | String "." rest => span_digits rest
    | _ => ("", s)
    end in
  let '(ex, s, exp_ok) :=
    match s with
    | String c rest =>
        if (c =? "e")%char || (c =? "E")%char
        then let '(eneg, rest) := strip_sign rest in
             let '(ed, tl) := span_digits rest in
             (if eneg then (- digits_to_Z 0 ed)%Z else digits_to_Z 0 ed,
              tl, negb (ed =? ""))
        else (0%Z, s, true)
    | EmptyString => (0%Z, s, true)
    end in
  if negb (s =? "") || ((ip =? "") && (fp =? "")) || negb exp_ok
  then inl ErrSyntax
  else
    match round_decimal neg (digits_to_Z 0 (ip ++ fp))
            (ex - Z.of_nat (String.length fp)) with
    | S754_infinity _ | S754_nan => inl ErrRange
    | f => inr f
    end.

End strconv.

(** ** unicode/utf8 *)
Module utf8.

Definition cont (c : ascii) : bool := in_range 128 191 c.

(** Number of bytes of the well-formed UTF-8 sequence at the head of [s]
    ([DecodeRuneInString] returns [RuneError] with width 1 otherwise:
    overlong forms, surrogates, values above U+10FFFF and truncated
    sequences are all ill-formed).  A byte past the end reads as NUL,
    which is no continuation byte. *)
Definition rune_width (s : string) : option nat :=
  let at_ (i : nat) : ascii := default zero (String.get i s) in
  let c0 := at_ 0%nat in
  let c1 := at_ 1%nat in
  let c2 := at_ 2%nat in
  let c3 := at_ 3%nat in
  if s =? "" then None
  else if in_range 0 127 c0 then Some 1%nat
  else if in_range 194 223 c0 && cont c1 then Some 2%nat
  else if (code c0 =? 224)%N && in_range 160 191 c1 && cont c2 then Some 3%nat
  else if (in_range 225 236 c0 || in_range 238 239 c0) && cont c1 && cont c2
  then Some 3%nat
  else if (code c0 =? 237)%N && in_range 128 159 c1 && cont c2 then Some 3%nat
  else if (code c0 =? 240)%N && in_range 144 191 c1 && cont c2 && cont c3
  then Some 4%nat
  else if in_range 241 243 c0 && cont c1 && cont c2 && cont c3 then Some 4%nat
  else if (code c0 =? 244)%N && in_range 128 143 c1 && cont c2 && cont c3
  then Some 4%nat
  else None.

Definition RuneError : N := 65533.

(** [AppendRune]: surrogates and values out of range are encoded as
    U+FFFD. *)
Definition EncodeRune (r : N) : string :=
  let r := if ((55296 <=? r) && (r <=? 57343) || (1114111 <? r))%N
           then RuneError else r in
  if (r <? 128)%N then String (byte_of r) ""
  else if (r <? 2048)%N then
    String (byte_of (192 + r / 64))
      (String (byte_of (128 + r mod 64)) "")
  else if (r <? 65536)%N then
    String (byte_of (224 + r / 4096))
      (String (byte_of (128 + (r / 64) mod 64))
         (String (byte_of (128 + r mod 64)) ""))
  else
    String (byte_of (240 + r / 262144))
      (String (byte_of (128 + (r / 4096) mod 64))
         (String (byte_of (128 + (r / 64) mod 64))
            (String (byte_of (128 + r mod 64)) ""))).

End utf8.

(** ** encoding/json: decoding a request body *)
Module json.
Import strconv.

(** The syntax of RFC 8259, as the scanner of the package accepts it.
    Strings are held decoded; a number keeps its literal. *)
Inductive value : Type :=
  | Null
  | Bool (b : bool)
  | Number (lit : string)
  | Str (s : string)
  | Array (elems : list value)
  | Object (members : list (string * value)).

(** What [Unmarshal] stores in an [any]: [nil], [bool], [float64],
    [string], [[]any] and [map[string]any]. *)
Inductive any : Type :=
  | ANil
  | ABool (b : bool)
  | AFloat64 (f : float64)
  | AString (s : string)
  | ASlice (elems : list any)
  | AMap (m : gmap string any).

Inductive error : Type :=
  | SyntaxError
  | UnmarshalTypeError (what : string).

Definition is_space (c : ascii) : bool :=
  (code c =? 32)%N || (code c =? 9)%N || (code c =? 13)%N || (code c =? 10)%N.

Fixpoint skip_space (s : string) : string :=
  match s with
  | String c rest => if is_space c then skip_space rest else s
  | EmptyString => s
  end.

Definition hex_value (c : ascii) : option N :=
  if in_range 48 57 c then Some (code c - 48)%N
  else if in_range 97 102 c then Some (code c - 87)%N
  else if in_range 65 70 c then Some (code c - 55)%N
  else None.

(** [getu4]: the four hex digits after a backslash-u. *)
Definition getu4 (s : string) : option (N * string) :=
  match s with
  | String a (String b (String c (String d rest))) =>
      ha ← hex_value a; hb ← hex_value b; hc ← hex_value c; hd ← hex_value d;
      Some (ha * 4096 + hb * 256 + hc * 16 + hd, rest)%N
  | _ => None
  end.

Definition is_surrogate (r : N) : bool := ((55296 <=? r) && (r <? 57344))%N.

(** [utf16.DecodeRune]: a high then a low surrogate make one code point. *)
Definition utf16_DecodeRune (r1 r2 : N) : option N :=
  if ((55296 <=? r1) && (r1 <? 56320) && (56320 <=? r2) && (r2 <? 57344))%N
  then Some ((r1 - 55296) * 1024 + (r2 - 56320) + 65536)%N
  else None.

(** The rune of a backslash-u escape whose four digits gave [r], and the
    input left: a surrogate pairs with a directly following low-surrogate
    escape, and is U+FFFD alone. *)
Definition escaped_rune (r : N) (rest : string) : N * string :=
  if is_surrogate r then
    match rest with
    | String b (String "u" rest') =>
        if (b =? backslash)%char then
          match getu4 rest' with
          | Some (r2, rest'') =>
              match utf16_DecodeRune r r2 with
              | Some dec => (dec, rest'')
              | None => (utf8.RuneError, rest)
              end
          | None => (utf8.RuneError, rest)
          end
        else (utf8.RuneError, rest)
    | _ => (utf8.RuneError, rest)
    end
  else (r, rest).

Definition simple_escape (c : ascii) : option ascii :=
  if (c =? dquote)%char then Some dquote
  else if (c =? backslash)%char then Some backslash
  else if (c =? "/")%char then Some "/"%char
  else if (c =? "b")%char then Some (byte_of 8)
  else if (c =? "f")%char then Some (byte_of 12)
  else if (c =? "n")%char then Some (byte_of 10)
  else if (c =? "r")%char then Some (byte_of 13)
  else if (c =? "t")%char then Some (byte_of 9)
  else None.

Definition drop_bytes (n : nat) (s : string) : string :=
  String.substring n (String.length s - n) s.

(** The contents of a string literal after its opening quote, decoded as
    [unquote] does, and the input after the closing quote.  Control
    characters are rejected; ill-formed UTF-8 becomes U+FFFD byte by
    byte. *)
Fixpoint scan_string (fuel : nat) (s : string) : option (string * string) :=
  match fuel with
  | O => None
  | S fuel =>
      match s with
      | EmptyString => None
      | String c rest =>
          if (c =? dquote)%char then Some ("", rest)
          else if (c =? backslash)%char then
            match rest with
            | String "u" rest' =>
                '(r, rest'') ← getu4 rest';
                let '(rr, tl) := escaped_rune r rest'' in
                '(out, tl') ← scan_string fuel tl;
                Some (utf8.EncodeRune rr ++ out, tl')
            | String e rest' =>
                b ← simple_escape e;
                '(out, tl) ← scan_string fuel rest';
                Some (String b out, tl)
            | EmptyString => None
            end
          else if (code c <? 32)%N then None
          else
            match utf8.rune_width s with
            | Some w =>
                '(out, tl) ← scan_string fuel (drop_bytes w s);
                Some (String.substring 0 w s ++ out, tl)
            | None =>
                '(out, tl) ← scan_string fuel rest;
                Some (utf8.EncodeRune utf8.RuneError ++ out, tl)
            end
      end
  end.

(** The number token at the head of [s]: an optional minus; then a
    single 0, or a nonzero digit and any digits; then optionally a dot
    and at least one digit; then optionally e or E, an optional sign and
    at least one digit. *)
Definition scan_number (s : string) : option (string * string) :=
  let '(sign, s1) :=
    match s with String "-" r => ("-", r) | _ => ("", s) end in
  '(ip, s2) ←
    match s1 with
    | String "0" r => Some ("0", r)
    | String c _ =>
        if in_range 49 57 c then Some (span_digits s1) else None
    | EmptyString => None
    end;
  '(fp, s3) ←
    match s2 with
    | String "." r =>
        let '(ds, tl) := span_digits r in
        if ds =? "" then None else Some (String "." ds, tl)
    | _ => Some ("", s2)
    end;
  '(ep, s4) ←
    match s3 with
    | String c r =>
        if (c =? "e")%char || (c =? "E")%char then
          let '(sg, r') :=
            match r with
            | String "+" t => ("+", t)
            | String "-" t => ("-", t)
            | _ => ("", r)
            end in
          let '(ds, tl) := span_digits r' in
          if ds =? "" then None else Some (String c (sg ++ ds), tl)
        else Some ("", s3)
    | EmptyString => Some ("", s3)
    end;
  Some (sign ++ ip ++ fp ++ ep, s4).

Definition expect (lit : string) (s : string) : option string :=
  if String.prefix lit s then Some (drop_bytes (String.length lit) s) else None.

Definition maxNestingDepth : N := 10000.

(** One value at the head of [s] (no leading space), below [depth] open
    arrays and objects. *)
Fixpoint scan_value (fuel : nat) (depth : N) (s : string)
  : option (value * string) :=
  match fuel with
  | O => None
  | S fuel =>
      match s with
      | String "{" rest =>
          if (maxNestingDepth <=? depth)%N then None
          else
            match skip_space rest with
            | String "}" tl => Some (Object [], tl)
            | rest' =>
                '(ms, tl) ← scan_members fuel (depth + 1) rest';
                Some (Object ms, tl)
            end
      | String "[" rest =>
          if (maxNestingDepth <=? depth)%N then None
          else
            match skip_space rest with
            | String "]" tl => Some (Array [], tl)
            | rest' =>
                '(vs, tl) ← scan_elements fuel (depth + 1) rest';
                Some (Array vs, tl)
            end
      | String "t" _ => tl ← expect "true" s; Some (Bool true, tl)
      | String "f" _ => tl ← expect "false" s; Some (Bool false, tl)
      | String "n" _ => tl ← expect "null" s; Some (Null, tl)
      | String c rest =>
          if (c =? dquote)%char then
            '(str, tl) ← scan_string (String.length s) rest;
            Some (Str str, tl)
          else
            '(lit, tl) ← scan_number s;
            Some (Number lit, tl)
      | EmptyString => None
      end
  end

(** Comma-separated values up to the closing bracket. *)
with scan_elements (fuel : nat) (depth : N) (s : string)
  : option (list value * string) :=
  match fuel with
  | O => None
  | S fuel =>
      '(v, s1) ← scan_value fuel depth (skip_space s);
      match skip_space s1 with
      | String "," s2 =>
          '(vs, tl) ← scan_elements fuel depth s2;
          Some (v :: vs, tl)
      | String "]" tl => Some ([v], tl)
      | _ => None
      end
  end

(** Comma-separated [key : value] members up to the closing brace. *)
with scan_members (fuel : nat) (depth : N) (s : string)
  : option (list (string * value) * string) :=
  match fuel with
  | O => None
  | S fuel =>
      match skip_space s with
      | String q s1 =>
          if (q =? dquote)%char then
            '(k, s2) ← scan_string (String.length s1) s1;
            match skip_space s2 with
            | String ":" s3 =>
                '(v, s4) ← scan_value fuel depth (skip_space s3);
                match skip_space s4 with
                | String "," s5 =>
                    '(ms, tl) ← scan_members fuel depth s5;
                    Some ((k, v) :: ms, tl)
                | String "}" tl => Some ([(k, v)], tl)
                | _ => None
                end
            | _ => None
            end
          else None
      | EmptyString => None
      end
  end.

(** The whole input as one JSON text: a value between optional white
    space, nothing after it. *)
Definition parse (data : bytes) : option value :=
  '(v, tl) ← scan_value (2 * String.length data + 2) 0 (skip_space data);
  if skip_space tl =? "" then Some v else None.

(** The Go value a JSON value decodes to inside an [any].  A number that
    does not fit a float64 is an [UnmarshalTypeError]; of an object's
    equal keys the last one wins. *)
Fixpoint to_any (v : value) : error + any :=
  match v with
  | Null => inr ANil
  | Bool b => inr (ABool b)
  | Number lit =>
      match ParseFloat lit with
      | inr f => inr (AFloat64 f)
      | inl _ => inl (UnmarshalTypeError ("number " ++ lit))
      end
  | Str s => inr (AString s)
  | Array elems =>
      sum_map id ASlice
      ((fix go (l : list value) : error + list any :=
         match l with
         | [] => inr []
         | x :: l' =>
             match to_any x, go l' with
             | inr a, inr r => inr (a :: r)
             | inl e, _ => inl e
             | _, inl e => inl e
             end
         end) elems)
  | Object members =>
      sum_map id AMap
      ((fix go (m : gmap string any) (l : list (string * value))
         : error + gmap string any :=
         match l with
         | [] => inr m
         | (k, x) :: l' =>
             match to_any x with
             | inr a => go (<[k := a]> m) l'
             | inl e => inl e
             end
         end) ∅ members)
  end.

(** A Go [map[string]any] variable: [None] is the nil map. *)
Abbreviation gomap := (option (gmap string any)) (only parsing).

(** [Unmarshal(data, &m)] for [m] a nil [map[string]any]: ill-formed
    text is a [SyntaxError]; the literal [null] leaves the map nil and is
    no error; an object fills a fresh map; any other value is an
    [UnmarshalTypeError].  ([to_any] of an object is a map or an
    error: the second branch of the inner match is never taken.) *)
Definition Unmarshal (data : bytes) : error + gomap :=
  match parse data with
  | None => inl SyntaxError
  | Some Null => inr None
  | Some (Object members) =>
      match to_any (Object members) with
      | inr (AMap m) => inr (Some m)
      | inr _ => inl (UnmarshalTypeError "object")
      | inl e => inl e
      end
  | Some (Bool _) => inl (UnmarshalTypeError "bool")
  | Some (Number _) => inl (UnmarshalTypeError "number")
  | Some (Str _) => inl (UnmarshalTypeError "string")
  | Some (Array _) => inl (UnmarshalTypeError "array")
  end.

(** [m[k]]: the zero value [nil] for a missing key or a nil map. *)
Definition index (m : gomap) (k : string) : any :=
  default ANil (m ≫= lookup k).

(** [m[k] = v]; assigning into a nil map is a run-time panic, [None]. *)
Definition assign (m : gomap) (k : string) (v : any) : option gomap :=
  match m with
  | Some entries => Some (Some (<[k := v]> entries))
  | None => None
  end.

(** The comma-ok type assertion [v.(string)]. *)
Definition assert_string (v : any) : string * bool :=
  match v with
  | AString s => (s, true)
  | _ => ("", false)
  end.

End json.

(** A Go [error] value: one of the decoder's, or any other, known by its
    text. *)
Inductive error : Type :=
  | JSONError (e : json.error)
  | ErrorString (text : string).

(** ** regexp: the fragment the device-id pattern is written in *)
Module regexp.

Inductive Regexp : Type :=
  | BeginText                                   (* ^ *)
  | EndText                                     (* $ , without the m flag *)
  | CharClass (ranges : list (ascii * ascii))   (* [a-bc-d] *)
  | Repeat (n : nat) (r : Regexp)               (* r{n} *)
  | Concat (r1 r2 : Regexp).

Definition in_class (ranges : list (ascii * ascii)) (c : ascii) : bool :=
  existsb (fun '(lo, hi) => in_range (code lo) (code hi) c) ranges.

(** Does [r] match a prefix of [s] such that [k] accepts what is left?
    [at_start] says whether no input has been consumed yet.  A class
    is compared byte by byte; a byte of a multi-byte rune is in no
    ASCII class, as the rune itself is not. *)
Fixpoint matches (r : Regexp) (at_start : bool) (s : string)
    (k : bool -> string -> bool) : bool :=
  match r with
  | BeginText => at_start && k at_start s
  | EndText => (s =? "") && k at_start s
  | CharClass ranges =>
      match s with
      | String c tl => in_class ranges c && k false tl
      | EmptyString => false
      end
  | Repeat n r' =>
      (fix rep (n : nat) (at_start : bool) (s : string) : bool :=
         match n with
         | O => k at_start s
         | S n' => matches r' at_start s (rep n')
         end) n at_start s
  | Concat r1 r2 =>
      matches r1 at_start s (fun st s' => matches r2 st s' k)
  end.

(** A match starting after the first byte of [s], or later. *)
Fixpoint matches_later (r : Regexp) (s : string) : bool :=
  match s with
  | String _ tl => matches r false tl (fun _ _ => true) || matches_later r tl
  | EmptyString => false
  end.

(** [MatchString]: does [s] contain any match of [r]? *)
Definition MatchString (r : Regexp) (s : string) : bool :=
  matches r true s (fun _ _ => true) || matches_later r s.

End regexp.

(** ** io: the body stream *)
Module io.

(** A stream that yields [data] and then ends, with [failure] instead
    of EOF when it is set. *)
Record Reader : Type := { data : bytes; failure : option error }.

Fixpoint take (n : N) (s : string) : string :=
  match s with
  | String c tl => if (n =? 0)%N then "" else String c (take (N.pred n) tl)
  | EmptyString => ""
  end.

(** Is [s] shorter than [n] bytes? *)
Fixpoint shorter (s : string) (n : N) : bool :=
  match s with
  | String _ tl => if (n =? 0)%N then false else shorter tl (N.pred n)
  | EmptyString => (0 <? n)%N
  end.

(** [LimitReader(r, n)] reports EOF after [n] bytes and never reads the
    underlying stream past them. *)
Definition LimitReader (r : Reader) (n : N) : Reader :=
  {| data := take n (data r);
     failure := if shorter (data r) n then failure r else None |}.

Definition ReadAll (r : Reader) : bytes * option error :=
  (data r, failure r).

End io.

(** ** net/http at the ResponseWriter interface *)
Module http.

Definition StatusOK : Z := 200.
Definition StatusBadRequest : Z := 400.
Definition StatusTooManyRequests : Z := 429.
Definition StatusInternalServerError : Z := 500.
Definition StatusBadGateway : Z := 502.
Definition StatusServiceUnavailable : Z := 503.

Abbreviation Header := (gmap string (list string)) (only parsing).

(** The interface [http.ResponseWriter]; [Header().Set] and
    [Header().Del] act on the header map the writer owns. *)
Class ResponseWriter (W : Type) : Type := {
  Header_Set : string -> string -> W -> W;
  Header_Del : string -> W -> W;
  Write : bytes -> W -> W;
  WriteHeader : Z -> W -> W
}.

(** The response of the server as the client gets it: the header map
    still open to changes, the status line and header block once
    committed, and the body bytes written so far. *)
Record response : Type := {
  header : Header;
  committed : option (Z * Header);
  body : bytes
}.

Definition fresh : response :=
  {| header := ∅; committed := None; body := "" |}.

Definition commit (code : Z) (w : response) : response :=
  match committed w with
  | Some _ => w
  | None => {| header := header w;
               committed := Some (code, header w);
               body := body w |}
  end.

(** Only the first [WriteHeader] counts; a [Write] before any
    [WriteHeader] commits status 200 first; header changes after the
    commit do not reach the client. *)
#[global] Instance response_writer : ResponseWriter response := {
  Header_Set k v w :=
    {| header := <[k := [v]]> (header w);
       committed := committed w; body := body w |};
  Header_Del k w :=
    {| header := delete k (header w);
       committed := committed w; body := body w |};
  Write b w :=
    let w' := commit StatusOK w in
    {| header := header w'; committed := committed w';
       body := body w' ++ b |};
  WriteHeader code w := commit code w
}.

Definition status (w : response) : option Z := fst <$> committed w.
Definition sent_header (w : response) (k : string) : option (list string) :=
  committed w ≫= fun c => snd c !! k.

Definition newline : string := String (byte_of 10) "".

(** [http.Error]: plain-text content type, the status, then the message
    and a newline as body. *)
Definition Error {W} `{ResponseWriter W} (error : string) (code : Z) (w : W) : W :=
  let w := Header_Del "Content-Length" w in
  let w := Header_Set "Content-Type" "text/plain; charset=utf-8" w in
  let w := Header_Set "X-Content-Type-Options" "nosniff" w in
  let w := WriteHeader code w in
  Write (error ++ newline) w.

(** An inbound request: method, path, the route variables [mux.Vars]
    extracts, and the body stream. *)
Record Request : Type := {
  Method : string;
  URL_Path : string;
  Vars : gmap string string;
  Body : io.Reader
}.

(** An outbound request as [NewRequest] builds it and the handler's
    [Header.Set] calls complete it. *)
Record ClientRequest : Type := {
  req_method : string;
  req_url : string;
  req_header : gmap string (list string);
  req_body : bytes
}.

(** What the transport hands back: [StatusCode], the status line text
    [Status], and the body stream. *)
Record Response : Type := {
  StatusCode : Z;
  Status : string;
  RespBody : io.Reader
}.

Definition Request_Header_Set (k v : string) (r : ClientRequest) : ClientRequest :=
  {| req_method := req_method r; req_url := req_url r;
     req_header := <[k := [v]]> (req_header r); req_body := req_body r |}.

(** [http.Transport] and [http.Client], by the fields [NewDeviceServer]
    sets; a [time.Duration] counts nanoseconds. *)
Record Transport : Type := {
  MaxIdleConns : Z;
  MaxIdleConnsPerHost : Z;
  IdleConnTimeout : Z;
  TLSHandshakeTimeout : Z;
  ForceAttemptHTTP2 : bool
}.

Record Client : Type := { Timeout : Z; Transport_ : Transport }.

End http.

(** ** time, net/url and net: what the health probe needs *)
Module time.
Definition Second : Z := 1000000000.
End time.

Module url.
(** Of a parsed URL the probe reads the field [Host]. *)
Record URL : Type := { Host : string }.
End url.

Module net.

(** [bytealg.IndexByteString] and [bytealg.LastIndexByteString]; [None]
    is the result -1. *)
Fixpoint IndexByteString (s : string) (c : ascii) : option nat :=
  match s with
  | String b tl =>
      if (b =? c)%char then Some 0%nat else S <$> IndexByteString tl c
  | EmptyString => None
  end.

Fixpoint LastIndexByteString (s : string) (c : ascii) : option nat :=
  match s with
  | String b tl =>
      match LastIndexByteString tl c with
      | Some i => Some (S i)
      | None => if (b =? c)%char then Some 0%nat else None
      end
  | EmptyString => None
  end.

(** The slices [s[i:j]] and [s[i:]]. *)
Definition slice (s : string) (i j : nat) : string :=
  String.substring i (j - i) s.
Definition slice_from (s : string) (i : nat) : string :=
  String.substring i (String.length s - i) s.

Record AddrError : Type := { Err : string; Addr : string }.

Definition AddrError_Error (e : AddrError) : string :=
  if Addr e =? "" then Err e else "address " ++ Addr e ++ ": " ++ Err e.

Definition missingPort : string := "missing port in address".
Definition tooManyColons : string := "too many colons in address".

(** [SplitHostPort]: the port starts after the last colon; a host in
    brackets ends at the first closing bracket, which must stand just
    before that colon; no other bracket and, outside brackets, no other
    colon may occur. *)
Definition SplitHostPort (hostport : string)
  : AddrError + (string * string) :=
  let addrErr (addr why : string) : AddrError + (string * string) :=
    inl {| Err := why; Addr := addr |} in
  match LastIndexByteString hostport ":" with
  | None => addrErr hostport missingPort
  | Some i =>
      let rest (host : string) (j k : nat) : AddrError + (string * string) :=
        match IndexByteString (slice_from hostport j) "[" with
        | Some _ => addrErr hostport "unexpected '[' in address"
        | None =>
            match IndexByteString (slice_from hostport k) "]" with
            | Some _ => addrErr hostport "unexpected ']' in address"
            | None => inr (host, slice_from hostport (i + 1))
            end
        end in
      match String.get 0 hostport with
      | Some "["%char =>
          match IndexByteString hostport "]" with
          | None => addrErr hostport "missing ']' in address"
          | Some end_ =>
              if (end_ + 1 =? String.length hostport)%nat
              then addrErr hostport missingPort
              else if (end_ + 1 =? i)%nat
              then rest (slice hostport 1 end_) 1%nat (end_ + 1)%nat
              else
                match String.get (end_ + 1) hostport with
                | Some ":"%char => addrErr hostport tooManyColons
                | _ => addrErr hostport missingPort
                end
          end
      | _ =>
          let host := slice hostport 0 i in
          match IndexByteString host ":" with
          | Some _ => addrErr hostport tooManyColons
          | None => rest host 0%nat 0%nat
          end
      end
  end.

(** [JoinHostPort]: a host with a colon in it is taken for a literal
    IPv6 address and put in brackets. *)
Definition JoinHostPort (host port : string) : string :=
  match IndexByteString host ":" with
  | Some _ => "[" ++ host ++ "]:" ++ port
  | None => host ++ ":" ++ port
  end.

End net.

(** ** wrp: the envelope *)
Module wrp.

Inductive MessageType : Type :=
  | Invalid0MessageType
  | AuthorizationMessageType
  | SimpleRequestResponseMessageType
  | SimpleEventMessageType.

(** The fields of [wrp.Message] the gateway sets or reads; all others
    keep their zero value. *)
Record Message : Type := {
  Type_ : MessageType;
  Source : string;
  Destination : string;
  ContentType : string;
  TransactionUUID : string;
  Payload : bytes
}.

End wrp.

(** ** zap: structured log entries *)
Module zap.

Inductive Level : Type := DebugLevel | InfoLevel | WarnLevel | ErrorLevel.

Inductive Field : Type :=
  | String_ (key val : string)
  | Int (key : string) (val : Z)
  | Error (err : error)
  | Any (key : string) (val : wrp.Message).

Record Entry : Type := { level : Level; message : string; fields : list Field }.

(** A logger is the list of fields [With] has bound to it. *)
Record Logger : Type := { context : list Field }.

Definition With (l : Logger) (fs : list Field) : Logger :=
  {| context := context l ++ fs |}.

Definition entry (l : Logger) (lvl : Level) (msg : string) (fs : list Field)
  : Entry :=
  {| level := lvl; message := msg; fields := context l ++ fs |}.

End zap.

(** [fmt.Sprint] of an [int]. *)
Definition itoa (n : Z) : string := NilZero.string_of_int (Z.to_int n).

(** * The gateway *)

Definition MaxBodySize : N := 1048576. (* 1 << 20 *)

Abbreviation RpcRequest := (option (gmap string json.any)) (only parsing).

(** [deviceIdRegex]: [^[0-9A-Fa-f]{12}$]. *)
Definition deviceIdRegex : regexp.Regexp :=
  regexp.Concat regexp.BeginText
    (regexp.Concat
       (regexp.Repeat 12
          (regexp.CharClass
             [("0", "9"); ("A", "F"); ("a", "f")]%char))
       regexp.EndText).

(** [DeviceServer]: the logger, the backend URL and credential, and the
    HTTP client, which is its [Do] method here. *)
Record DeviceServer : Type := {
  log : zap.Logger;
  scytaleUrl : string;
  scytaleAuth : string;
  client : http.ClientRequest -> error + http.Response
}.

(** What the world outside decides during one request, by the function
    that asks: the identifier [uuid.New().String()] returns to
    [PostCallHandler] is an argument of it; the limiter's verdict and the
    sampling draw are the two records below. *)
Record Verdict : Type := {
  limiter_Wait : option error;   (* the error of limiter.Wait(r.Context()) *)
  ctx_Err : option error         (* r.Context().Err(), read after it *)
}.

Record Sample : Type := {
  rand_Float64 : strconv.float64;   (* rand.Float64() *)
  elapsed : strconv.float64         (* time.Since(start).Seconds() *)
}.

(** The calls a request makes on its collaborators, in order. *)
Inductive Event : Type :=
  | EvLog (e : zap.Entry)
  | EvUUID (id : string)
  | EvMarshal (m : RpcRequest)
  | EvEncode (msg : wrp.Message)
  | EvDo (req : http.ClientRequest)
  | EvDecode (body : io.Reader)
  | EvObserve (labels : list string) (seconds : strconv.float64)
  | EvInc (labels : list string)
  | EvPanic (msg : string).

(** ** Handlers as state transformers

    A handler runs against a response writer of any implementation and
    appends to the trace of its calls. *)
Record St (W : Type) : Type := { rw : W; trace : list Event }.
Arguments rw {W} _.
Arguments trace {W} _.

Definition M (W A : Type) : Type := St W -> A * St W.

Definition ret {W A} (a : A) : M W A := fun st => (a, st).
Definition bind {W A B} (m : M W A) (k : A -> M W B) : M W B :=
  fun st => let '(a, st') := m st in k a st'.

Notation "x <- c1 ;; c2" := (bind c1 (fun x => c2))
  (at level 100, c1 at next level, right associativity).
Notation "c1 ;; c2" := (bind c1 (fun _ => c2))
  (at level 100, right associativity).

Definition emit {W} (ev : Event) : M W unit :=
  fun st => (tt, {| rw := rw st; trace := trace st ++ [ev] |}).

Definition on_writer {W} (f : W -> W) : M W unit :=
  fun st => (tt, {| rw := f (rw st); trace := trace st |}).

(** The state a handler leaves. *)
Definition exec {W A} (m : M W A) (st : St W) : St W := snd (m st).

Definition Handler : Type :=
  forall (W : Type), http.ResponseWriter W -> http.Request -> M W unit.

Section Calls.
Context {W : Type} `{!http.ResponseWriter W}.

Definition logger_Error (l : zap.Logger) (msg : string) (fs : list zap.Field)
  : M W unit := emit (EvLog (zap.entry l zap.ErrorLevel msg fs)).
Definition logger_Warn (l : zap.Logger) (msg : string) (fs : list zap.Field)
  : M W unit := emit (EvLog (zap.entry l zap.WarnLevel msg fs)).
Definition logger_Debug (l : zap.Logger) (msg : string) (fs : list zap.Field)
  : M W unit := emit (EvLog (zap.entry l zap.DebugLevel msg fs)).

Definition http_Error (error : string) (code : Z) : M W unit :=
  on_writer (http.Error error code).

Definition panic (msg : string) : M W unit := emit (EvPanic msg).
End Calls.

(** The packages the handler treats as black boxes: [json.Marshal], the
    WRP Msgpack encoder and decoder, and [url.Parse] inside
    [http.NewRequest]. *)
Record Extern : Type := {
  json_Marshal : RpcRequest -> error + bytes;
  wrp_Encode : wrp.Message -> error + bytes;
  wrp_Decode : io.Reader -> error + wrp.Message;
  url_Parse : string -> option error
}.

Section Gateway.
Variable ext : Extern.

(** [http.NewRequest]: fails when the URL does not parse. *)
Definition http_NewRequest (method url : string) (body : bytes)
  : error + http.ClientRequest :=
  match url_Parse ext url with
  | Some err => inl err
  | None => inr {| http.req_method := method; http.req_url := url;
                   http.req_header := ∅; http.req_body := body |}
  end.

(** Lines 85-89 of [PostCallHandler]: in a JSON-RPC message, set the
    [id] when it is no string or the empty string.  [None] is the panic
    of an assignment into a nil map. *)
Definition injectID (deviceRequest : RpcRequest) (requestID : string)
  : option RpcRequest :=
  if snd (json.assert_string (json.index deviceRequest "jsonrpc")) then
    let '(id, ok) := json.assert_string (json.index deviceRequest "id") in
    if negb ok || (id =? "")
    then json.assign deviceRequest "id" (json.AString requestID)
    else Some deviceRequest
  else Some deviceRequest.

Section WithWriter.
Context {W : Type} `{!http.ResponseWriter W}.

(** Lines 138-166: from the backend's reply to the client's
    response.  (A [Write] that fails is only logged, lines 162-165; the
    writers here take every write.) *)
Definition translateReply (logEntry : zap.Logger) (resp : http.Response)
  : M W unit :=
  if (http.StatusCode resp <? 200)%Z || (400 <=? http.StatusCode resp)%Z then
    logger_Error logEntry "Scytale returned invalid status"
      [zap.Int "status_code" (http.StatusCode resp);
       zap.String_ "status" (http.Status resp)] ;;
    http_Error ("Scytale returned invalid status: " ++ http.Status resp)
      (http.StatusCode resp)
  else
    emit (EvDecode (http.RespBody resp)) ;;
    match wrp_Decode ext (http.RespBody resp) with
    | inl err =>
        logger_Error logEntry "Failed to decode Msgpack response"
          [zap.Error err] ;;
        http_Error "Failed to decode Scytale response" http.StatusBadRequest
    | inr wrpResponse =>
        logger_Debug logEntry "Received WRP response"
          [zap.Any "response" wrpResponse] ;;
        if wrp.Payload wrpResponse =? "" then
          logger_Warn logEntry "Empty payload in Scytale response" [] ;;
          http_Error "Empty response from Scytale" http.StatusBadGateway
        else
          on_writer (http.Header_Set "Content-Type" "application/json") ;;
          on_writer (http.Write (wrp.Payload wrpResponse))
    end.

(** Lines 91-135: serialise the request, wrap it, post it. *)
Definition forward (u : DeviceServer) (deviceID service requestID : string)
    (deviceRequest : RpcRequest) : M W unit :=
  let destination := "mac:" ++ deviceID ++ "/" ++ service in
  let logEntry :=
    zap.With (log u)
      [zap.String_ "device_id" deviceID;
       zap.String_ "request_id" requestID] in
  emit (EvMarshal deviceRequest) ;;
  match json_Marshal ext deviceRequest with
  | inl err =>
      logger_Error logEntry "Failed to marshal JSON" [zap.Error err] ;;
      http_Error "Failed to marshal JSON" http.StatusInternalServerError
  | inr wrpPayload =>
      let wrpRequest :=
        {| wrp.Type_ := wrp.SimpleRequestResponseMessageType;
           wrp.Source := "scytale2parodus";
           wrp.Destination := destination;
           wrp.ContentType := "application/json";
           wrp.TransactionUUID := requestID;
           wrp.Payload := wrpPayload |} in
      emit (EvEncode wrpRequest) ;;
      match wrp_Encode ext wrpRequest with
      | inl err =>
          logger_Error logEntry "Failed to encode WRP Msgpack"
            [zap.Error err] ;;
          http_Error "Failed to encode WRP Msgpack"
            http.StatusInternalServerError
      | inr wrpReqBody =>
          match http_NewRequest "POST" (scytaleUrl u) wrpReqBody with
          | inl err =>
              logger_Error logEntry "Failed to create HTTP request"
                [zap.Error err] ;;
              http_Error "Failed to post to Scytale"
                http.StatusServiceUnavailable
          | inr postReq =>
              let postReq :=
                http.Request_Header_Set "Content-Type" "application/msgpack"
                  postReq in
              let postReq :=
                http.Request_Header_Set "Accept" "application/msgpack"
                  postReq in
              let postReq :=
                http.Request_Header_Set "Authorization"
                  ("Basic " ++ scytaleAuth u) postReq in
              logger_Debug logEntry "Sending WRP request"
                [zap.String_ "url" (scytaleUrl u)] ;;
              emit (EvDo postReq) ;;
              match client u postReq with
              | inl err =>
                  logger_Error logEntry "Failed to post to Scytale"
                    [zap.Error err] ;;
                  http_Error "Failed to post to Scytale"
                    http.StatusServiceUnavailable
              | inr resp => translateReply logEntry resp
              end
          end
      end
  end.

(** [PostCallHandler], lines 54-166. *)
Definition PostCallHandler_on (u : DeviceServer) (uuid_New : string)
    (r : http.Request) : M W unit :=
  let vars := http.Vars r in
  let deviceID := vars !!! "deviceID" in
  let service := vars !!! "service" in
  if negb (regexp.MatchString deviceIdRegex deviceID) then
    logger_Error (log u) "Invalid device ID format"
      [zap.String_ "device_id" deviceID] ;;
    http_Error
      "Invalid device ID: must be a 12-character hexadecimal MAC address"
      http.StatusBadRequest
  else
    let bodyReader := io.LimitReader (http.Body r) MaxBodySize in
    match io.ReadAll bodyReader with
    | (_, Some err) =>
        logger_Error (log u) "Failed to read request body"
          [zap.String_ "device_id" deviceID; zap.Error err] ;;
        http_Error "Failed to read request body" http.StatusBadRequest
    | (body, None) =>
        match json.Unmarshal body with
        | inl err =>
            logger_Error (log u) "Failed to unmarshal JSON"
              [zap.String_ "device_id" deviceID;
               zap.Error (JSONError err)] ;;
            http_Error "Failed to parse JSON" http.StatusBadRequest
        | inr deviceRequest =>
            let requestID := uuid_New in
            emit (EvUUID requestID) ;;
            match injectID deviceRequest requestID with
            | None => panic "assignment to entry in nil map"
            | Some deviceRequest =>
                forward u deviceID service requestID deviceRequest
            end
        end
    end.

End WithWriter.

Definition PostCallHandler (u : DeviceServer) (uuid_New : string) : Handler :=
  fun W _ r => PostCallHandler_on u uuid_New r.

End Gateway.

(** [NewDeviceServer], lines 36-52: the three arguments stored, a client
    with fixed time-outs and pool sizes, and never an error.
    [Client_Do] is the method [Do] of [http.Client]. *)
Definition NewDeviceServer
    (Client_Do : http.Client -> http.ClientRequest -> error + http.Response)
    (logger : zap.Logger) (url auth : string) : DeviceServer * option error :=
  ({| log := logger;
      scytaleUrl := url;
      scytaleAuth := auth;
      client :=
        Client_Do
          {| http.Timeout := 10 * time.Second;
             http.Transport_ :=
               {| http.MaxIdleConns := 100;
                  http.MaxIdleConnsPerHost := 100;
                  http.IdleConnTimeout := 90 * time.Second;
                  http.TLSHandshakeTimeout := 10 * time.Second;
                  http.ForceAttemptHTTP2 := true |} |} |},
   None).

(** What the health probe asks of the world: [url.Parse], and
    [net.DialTimeout] by network, address and time-out, whose connection
    is closed at once. *)
Record Network : Type := {
  net_url_Parse : string -> error + url.URL;
  net_DialTimeout : string -> string -> Z -> option error
}.

(** [HealthCheckHandler], lines 169-196. *)
Definition HealthCheckHandler (nw : Network) (u : DeviceServer) : Handler :=
  fun W _ r =>
    match net_url_Parse nw (scytaleUrl u) with
    | inl err =>
        logger_Error (log u) "Failed to parse Scytale URL" [zap.Error err] ;;
        http_Error "Health check failed: invalid Scytale URL"
          http.StatusInternalServerError
    | inr parsedURL =>
        match net.SplitHostPort (url.Host parsedURL) with
        | inl err =>
            logger_Error (log u)
              "Failed to extract host and port from Scytale URL"
              [zap.Error (ErrorString (net.AddrError_Error err))] ;;
            http_Error "Health check failed: invalid Scytale host/port"
              http.StatusInternalServerError
        | inr (host, port) =>
            match net_DialTimeout nw "tcp" (net.JoinHostPort host port)
                    (2 * time.Second) with
            | Some err =>
                logger_Error (log u) "Failed to connect to Scytale"
                  [zap.String_ "host" host; zap.String_ "port" port;
                   zap.Error err] ;;
                http_Error "Scytale unreachable" http.StatusServiceUnavailable
            | None =>
                on_writer (http.Header_Set "Content-Type" "application/json") ;;
                on_writer
                  (http.Write
                     ("{" ++ quoted "status" ++ ":" ++ quoted "healthy" ++ "}"))
            end
        end
    end.

(** ** main.go *)

(** [responseWriter]: the embedded writer and the status it last saw. *)
Record responseWriter (W : Type) : Type := {
  ResponseWriter : W;
  statusCode : Z
}.
Arguments ResponseWriter {W} _.
Arguments statusCode {W} _.

Section ResponseWriterMethods.
Context {W : Type} `{!http.ResponseWriter W}.

Definition responseWriter_WriteHeader (code : Z) (rw : responseWriter W)
  : responseWriter W :=
  {| ResponseWriter := http.WriteHeader code (ResponseWriter rw);
     statusCode := code |}.

Definition responseWriter_Write (b : bytes) (rw : responseWriter W)
  : responseWriter W :=
  let rw :=
    if (statusCode rw =? 0)%Z
    then responseWriter_WriteHeader http.StatusOK rw
    else rw in
  {| ResponseWriter := http.Write b (ResponseWriter rw);
     statusCode := statusCode rw |}.

(** [Header] is promoted from the embedded writer. *)
#[global] Instance responseWriter_writer
  : http.ResponseWriter (responseWriter W) := {
  http.Header_Set k v rw :=
    {| ResponseWriter := http.Header_Set k v (ResponseWriter rw);
       statusCode := statusCode rw |};
  http.Header_Del k rw :=
    {| ResponseWriter := http.Header_Del k (ResponseWriter rw);
       statusCode := statusCode rw |};
  http.Write := responseWriter_Write;
  http.WriteHeader := responseWriter_WriteHeader
}.
End ResponseWriterMethods.

(** [rateLimitMiddleware]: an error of [limiter.Wait] ends the request,
    silently when the request's context is done, with 429 otherwise. *)
Definition rateLimitMiddleware (logger : zap.Logger) (limiter : Verdict)
    (next : Handler) : Handler :=
  fun W _ r =>
    match limiter_Wait limiter with
    | Some err =>
        match ctx_Err limiter with
        | Some _ => ret tt (* Client disconnected *)
        | None =>
            logger_Error logger "Rate limit exceeded"
              [zap.String_ "path" (http.URL_Path r); zap.Error err] ;;
            http_Error "Too Many Requests" http.StatusTooManyRequests
        end
    | None => next W _ r
    end.

(** The float64 nearest to the constant [0.1]. *)
Definition sampling : strconv.float64 :=
  S754_finite false 7205759403792794 (-56).

(** [metricsMiddleware]: run [next] on a status-capturing writer, then
    with [rand.Float64() < 0.1] record one observation and one count. *)
Definition metricsMiddleware (handlerName : string) (rand : Sample)
    (next : Handler) : Handler :=
  fun W _ r st =>
    let wrapped := {| ResponseWriter := rw st; statusCode := http.StatusOK |} in
    let '(_, st') := next (responseWriter W) _ r
                       {| rw := wrapped; trace := trace st |} in
    let wrapped := rw st' in
    let st := {| rw := ResponseWriter wrapped; trace := trace st' |} in
    if SFltb (rand_Float64 rand) sampling then
      let duration := elapsed rand in
      let labels := [handlerName; http.Method r; itoa (statusCode wrapped);
                     http.URL_Path r] in
      (emit (EvObserve labels duration) ;; emit (EvInc labels)) st
    else (tt, st).

(** The route [/api/v1/{deviceID}/send/{service}]. *)
Definition sendRoute (ext : Extern) (logger : zap.Logger) (u : DeviceServer)
    (rand : Sample) (limiter : Verdict) (uuid_New : string) : Handler :=
  metricsMiddleware "send" rand
    (rateLimitMiddleware logger limiter (PostCallHandler ext u uuid_New)).

(** ** Reading a run *)

(** A request starts on writer [w] with nothing done yet. *)
Definition start {W} (w : W) : St W := {| rw := w; trace := [] |}.

(** The envelopes handed to the WRP encoder, the requests posted to the
    backend, the reply bodies handed to the WRP decoder, the identifiers
    generated and the objects serialised, in order. *)
Definition envelopes (tr : list Event) : list wrp.Message :=
  omap (fun ev => match ev with EvEncode m => Some m | _ => None end) tr.
Definition backend_calls (tr : list Event) : list http.ClientRequest :=
  omap (fun ev => match ev with EvDo q => Some q | _ => None end) tr.
Definition decodes (tr : list Event) : list io.Reader :=
  omap (fun ev => match ev with EvDecode b => Some b | _ => None end) tr.
Definition uuids (tr : list Event) : list string :=
  omap (fun ev => match ev with EvUUID i => Some i | _ => None end) tr.
Definition marshalled (tr : list Event) : list RpcRequest :=
  omap (fun ev => match ev with EvMarshal m => Some m | _ => None end) tr.

Definition logged (tr : list Event) : list zap.Entry :=
  omap (fun ev => match ev with EvLog e => Some e | _ => None end) tr.

(** ** Calls on a response writer

    A handler reaches its writer only through the four methods of the
    interface; a list of calls stands for what any handler may do to
    it. *)
Inductive WriterCall : Type :=
  | CallHeaderSet (k v : string)
  | CallHeaderDel (k : string)
  | CallWrite (b : bytes)
  | CallWriteHeader (code : Z).

Definition call {W} `{!http.ResponseWriter W} (c : WriterCall) (w : W) : W :=
  match c with
  | CallHeaderSet k v => http.Header_Set k v w
  | CallHeaderDel k => http.Header_Del k w
  | CallWrite b => http.Write b w
  | CallWriteHeader code => http.WriteHeader code w
  end.

Definition calls {W} `{!http.ResponseWriter W} (cs : list WriterCall) (w : W)
  : W := fold_left (fun w c => call c w) cs w.

(** The codes of the [WriteHeader] calls, in order. *)
Definition header_codes (cs : list WriterCall) : list Z :=
  omap (fun c => match c with CallWriteHeader code => Some code | _ => None end)
    cs.

(** ** The words of the specification *)

(** A hexadecimal character, in either case. *)
Definition is_hex_digit (c : ascii) : bool :=
  in_range 48 57 c || in_range 65 70 c || in_range 97 102 c.

(** Exactly twelve hexadecimal characters and nothing else. *)
Definition hex12 (s : string) : bool :=
  (String.length s =? 12)%nat && forallb is_hex_digit (list_ascii_of_string s).

(** The body is a JSON object (nested no deeper than the decoder reads). *)
Definition is_json_object (body : bytes) : Prop :=
  exists members, json.parse body = Some (json.Object members).

(** The number literal is within the range of float64. *)
Definition fits_float64 (lit : string) : bool :=
  match strconv.ParseFloat lit with inr _ => true | inl _ => false end.

(** Every number in the value, at any depth, is within that range. *)
Fixpoint numbers_fit (v : json.value) : bool :=
  match v with
  | json.Number lit => fits_float64 lit
  | json.Array elems => forallb numbers_fit elems
  | json.Object members =>
      (fix go (l : list (string * json.value)) : bool :=
         match l with
         | [] => true
         | (_, x) :: l' => numbers_fit x && go l'
         end) members
  | _ => true
  end.

(** The bytes of the body the handler parses: the first [MaxBodySize]. *)
Definition truncated (r : http.Request) : bytes :=
  io.data (io.LimitReader (http.Body r) MaxBodySize).

(** A status the handler accepts from the backend. *)
Definition accepted (code : Z) : Prop := (200 <= code < 400)%Z.

(** What a passing health probe answers. *)
Definition healthy : bytes :=
  "{" ++ quoted "status" ++ ":" ++ quoted "healthy" ++ "}".

(** [n] repetitions of one class, the shape [matches] takes on
    [Repeat n (CharClass rs)]. *)
Fixpoint repeat_class (rs : list (ascii * ascii)) (n : nat) (st : bool)
    (s : string) (k : bool -> string -> bool) : bool :=
  match n with
  | O => k st s
  | S n' =>
      match s with
      | String c tl => regexp.in_class rs c && repeat_class rs n' false tl k
      | EmptyString => false
      end
  end.

(** ** A bench to run the handler on

    One choice of the black boxes: the serialiser writes a fixed text, the
    encoder sends the payload as it is, the decoder takes a reply that
    starts with [W] as a message whose payload is the rest, and every URL
    parses.  The backend answers every post with the same reply. *)
Module Bench.

Definition ext : Extern := {|
  json_Marshal := fun m =>
    inr (match m with None => "null" | Some _ => "{...}" end);
  wrp_Encode := fun msg => inr (wrp.Payload msg);
  wrp_Decode := fun b =>
    match io.data b with
    | String "W" payload =>
        inr {| wrp.Type_ := wrp.SimpleRequestResponseMessageType;
               wrp.Source := "mac:001122334455/Tasker";
               wrp.Destination := "scytale2parodus";
               wrp.ContentType := "application/json";
               wrp.TransactionUUID := "";
               wrp.Payload := payload |}
    | _ => inl (ErrorString "msgpack: invalid code")
    end;
  url_Parse := fun _ => None
|}.

Definition reply (code : Z) (text : string) (body : bytes) : http.Response :=
  {| http.StatusCode := code; http.Status := text;
     http.RespBody := {| io.data := body; io.failure := None |} |}.

Definition server (answer : http.Response) : DeviceServer := {|
  log := {| zap.context := [] |};
  scytaleUrl := "http://scytale:6300/api/v2/device";
  scytaleAuth := "dXNlcjpwYXNz";
  client := fun _ => inr answer
|}.

Definition request (deviceID : string) (body : bytes) : http.Request := {|
  http.Method := "POST";
  http.URL_Path := "/api/v1/" ++ deviceID ++ "/send/Tasker";
  http.Vars := {[ "deviceID" := deviceID; "service" := "Tasker" ]};
  http.Body := {| io.data := body; io.failure := None |}
|}.

Definition uuid : string := "7674ff29-e62c-45b8-a6c0-d70affdffc0f".

(** Request bodies: a JSON-RPC call without id, one with a numeric id,
    an object that is no JSON-RPC call, and two edge cases of the
    decoder. *)
Definition body_no_id : bytes :=
  "{" ++ quoted "jsonrpc" ++ ":" ++ quoted "2.0" ++ ","
      ++ quoted "method" ++ ":" ++ quoted "x" ++ "}".
Definition body_numeric_id : bytes :=
  "{" ++ quoted "jsonrpc" ++ ":" ++ quoted "2.0" ++ ","
      ++ quoted "id" ++ ":7,"
      ++ quoted "method" ++ ":" ++ quoted "x" ++ "}".
Definition body_plain : bytes :=
  "{" ++ quoted "id" ++ ":7," ++ quoted "method" ++ ":" ++ quoted "x" ++ "}".
Definition body_null : bytes := "null".
Definition body_huge_number : bytes := "{" ++ quoted "a" ++ ":1e999}".

Definition ok_reply : http.Response :=
  reply 200 "200 OK" ("W{" ++ quoted "result" ++ ":1}").

(** What the handler posts for a body that decodes to an object. *)
Definition posted : http.ClientRequest :=
  http.Request_Header_Set "Authorization" "Basic dXNlcjpwYXNz"
    (http.Request_Header_Set "Accept" "application/msgpack"
       (http.Request_Header_Set "Content-Type" "application/msgpack"
          {| http.req_method := "POST";
             http.req_url := "http://scytale:6300/api/v2/device";
             http.req_header := ∅;
             http.req_body := "{...}" |})).

(** Three backends: one that answers with a message, one that fails,
    one that answers with bytes that are no message. *)
Definition answering : DeviceServer := server ok_reply.
Definition babbling : DeviceServer := server (reply 200 "200 OK" "garbage").

Definition deviceID : string := "001122334455".

(** The handler on the server's own response writer. *)
Abbreviation run u r :=
  (exec (PostCallHandler ext u uuid http.response http.response_writer r)
     (start http.fresh)).

(** Black boxes of which one fails: the serialiser, the encoder, the URL
    parser; and a backend that cannot be reached. *)
Definition ext_no_marshal : Extern := {|
  json_Marshal := fun _ => inl (ErrorString "json: unsupported value");
  wrp_Encode := wrp_Encode ext;
  wrp_Decode := wrp_Decode ext;
  url_Parse := url_Parse ext
|}.

Definition ext_no_encode : Extern := {|
  json_Marshal := json_Marshal ext;
  wrp_Encode := fun _ => inl (ErrorString "msgpack: encode failed");
  wrp_Decode := wrp_Decode ext;
  url_Parse := url_Parse ext
|}.

Definition ext_no_url : Extern := {|
  json_Marshal := json_Marshal ext;
  wrp_Encode := wrp_Encode ext;
  wrp_Decode := wrp_Decode ext;
  url_Parse := fun _ => Some (ErrorString "parse: missing protocol scheme")
|}.

Definition refusing : error := ErrorString "dial tcp: connection refused".

Definition unreachable : DeviceServer := {|
  log := {| zap.context := [] |};
  scytaleUrl := "http://scytale:6300/api/v2/device";
  scytaleAuth := "dXNlcjpwYXNz";
  client := fun _ => inl refusing
|}.

(** A server as [NewDeviceServer] makes it, over a transport that
    answers every post with the same message. *)
Definition Client_Do (c : http.Client) (q : http.ClientRequest)
  : error + http.Response := inr ok_reply.

(** The envelope built for a body that decodes to an object. *)
Definition envelope : wrp.Message := {|
  wrp.Type_ := wrp.SimpleRequestResponseMessageType;
  wrp.Source := "scytale2parodus";
  wrp.Destination := "mac:001122334455/Tasker";
  wrp.ContentType := "application/json";
  wrp.TransactionUUID := uuid;
  wrp.Payload := "{...}"
|}.

(** A JSON-RPC call that brings its own id; a body stream that breaks
    off; a body of exactly [MaxBodySize] bytes. *)
Definition body_string_id : bytes :=
  "{" ++ quoted "jsonrpc" ++ ":" ++ quoted "2.0" ++ ","
      ++ quoted "id" ++ ":" ++ quoted "abc" ++ ","
      ++ quoted "method" ++ ":" ++ quoted "x" ++ "}".

Definition broken : io.Reader :=
  {| io.data := "{"; io.failure := Some (ErrorString "unexpected EOF") |}.

Definition full : bytes := N.iter 1048574 (String " ") "{}".

(** The limiter's three verdicts and two draws of the sampler. *)
Definition cancelled : Verdict :=
  {| limiter_Wait := Some (ErrorString "context canceled");
     ctx_Err := Some (ErrorString "context canceled") |}.
Definition refused : Verdict :=
  {| limiter_Wait :=
       Some (ErrorString "rate: Wait(n=1) exceeds limiter's burst 0");
     ctx_Err := None |}.
Definition granted : Verdict := {| limiter_Wait := None; ctx_Err := None |}.

Definition float_of (lit : string) : strconv.float64 :=
  match strconv.ParseFloat lit with
  | inr f => f
  | inl _ => S754_zero false
  end.

Definition unsampled : Sample :=
  {| rand_Float64 := float_of "0.5"; elapsed := float_of "0.25" |}.

Definition logger : zap.Logger := {| zap.context := [] |}.

(** A network for the health probe: the URL parser knows two URLs, one
    with a port and one without; every dial gets the same answer. *)
Definition network (answer : option error) : Network := {|
  net_url_Parse := fun s =>
    if s =? "http://scytale:6300/api/v2/device"
    then inr {| url.Host := "scytale:6300" |}
    else if s =? "http://scytale/api/v2/device"
    then inr {| url.Host := "scytale" |}
    else inl (ErrorString "parse: invalid URL");
  net_DialTimeout := fun _ _ _ => answer
|}.

Definition portless : DeviceServer := {|
  log := {| zap.context := [] |};
  scytaleUrl := "http://scytale/api/v2/device";
  scytaleAuth := "dXNlcjpwYXNz";
  client := fun _ => inl refusing
|}.

(** Two bodies that decode alike: the integer 2^53 + 1, and, with white
    space and a key given twice, the integer 2^53; and a request of another
    method and path with one more route variable. *)
Definition body_odd : bytes := "{" ++ quoted "n" ++ ":9007199254740993}".
Definition body_even : bytes :=
  " { " ++ quoted "n" ++ ":0," ++ quoted "n" ++ " : 9007199254740992 } ".

Definition put (deviceID : string) (body : bytes) : http.Request := {|
  http.Method := "PUT";
  http.URL_Path := "/elsewhere";
  http.Vars := {[ "service" := "Tasker"; "deviceID" := deviceID;
                  "extra" := "ignored" ]};
  http.Body := {| io.data := body; io.failure := None |}
|}.

End Bench.

(** The same request with another body stream. *)
Definition with_body (r : http.Request) (b : io.Reader) : http.Request :=
  {| http.Method := http.Method r; http.URL_Path := http.URL_Path r;
     http.Vars := http.Vars r; http.Body := b |}.

(** The state [metricsMiddleware] hands to the wrapped handler, and the
    labels of what it records. *)
Definition wrap {W} (st : St W) : St (responseWriter W) :=
  {| rw := {| ResponseWriter := rw st; statusCode := http.StatusOK |};
     trace := trace st |}.

Definition labels_of {W} (handlerName : string) (r : http.Request)
    (inner : St (responseWriter W)) : list string :=
  [handlerName; http.Method r; itoa (statusCode (rw inner)); http.URL_Path r].

(** A handler that answers 204, to run the middleware on. *)
Definition noContent : Handler :=
  fun W _ r => on_writer (http.WriteHeader 204).

(** * Properties *)

#[local] Arguments io.LimitReader : simpl never.
#[local] Arguments json.Unmarshal : simpl never.
#[local] Arguments regexp.MatchString : simpl never.
#[local] Arguments hex12 : simpl never.
#[local] Arguments http.Error : simpl never.

(** ** The models of the Go packages, on examples *)

Example ParseFloat_examples :
  strconv.ParseFloat "7" = inr (S754_finite false 7881299347898368 (-50))
  /\ strconv.ParseFloat "-0" = inr (S754_zero true)
  /\ strconv.ParseFloat "9007199254740993"
     = inr (S754_finite false 4503599627370496 1)
  /\ strconv.ParseFloat "1.7976931348623157e308"
     = inr (S754_finite false 9007199254740991 971)
  /\ strconv.ParseFloat "1.7976931348623159e308" = inl strconv.ErrRange
  /\ strconv.ParseFloat "1e999" = inl strconv.ErrRange
  /\ strconv.ParseFloat "5e-324" = inr (S754_finite false 1 (-1074))
  /\ strconv.ParseFloat "1e-400" = inr (S754_zero false).
Proof. vm_compute. repeat split. Qed.

Example parse_examples :
  json.parse "null" = Some json.Null
  /\ json.parse " [1, 2.5e3 ,true,false,null, {}, [] ] "
     = Some (json.Array [json.Number "1"; json.Number "2.5e3"; json.Bool true;
                         json.Bool false; json.Null; json.Object [];
                         json.Array []])
  /\ json.parse ("{" ++ quoted "id" ++ ":" ++ quoted "a\nb" ++ "}")
     = Some (json.Object [("id", json.Str ("a" ++ http.newline ++ "b"))])
  /\ json.parse "" = None
  /\ json.parse "[1,]" = None
  /\ json.parse "01" = None
  /\ json.parse "1." = None
  /\ json.parse "nul" = None
  /\ json.parse "{} {}" = None
  /\ json.parse ("{" ++ quoted "a" ++ ":1,}") = None.
Proof. vm_compute. repeat split. Qed.

Example Unmarshal_examples :
  json.Unmarshal "null" = inr None
  /\ json.Unmarshal "{}" = inr (Some ∅)
  /\ json.Unmarshal ("{" ++ quoted "a" ++ ":1," ++ quoted "a" ++ ":true}")
     = inr (Some {[ "a" := json.ABool true ]})
  /\ json.Unmarshal "[1,2]" = inl (json.UnmarshalTypeError "array")
  /\ json.Unmarshal (quoted "x") = inl (json.UnmarshalTypeError "string")
  /\ json.Unmarshal "{" = inl json.SyntaxError
  /\ json.Unmarshal Bench.body_huge_number
     = inl (json.UnmarshalTypeError "number 1e999").
Proof. vm_compute. repeat split. Qed.

Example hex12_examples :
  hex12 "001122334455" = true
  /\ hex12 "aAbBcCdDeEfF" = true
  /\ hex12 "00112233445" = false
  /\ hex12 "0011223344556" = false
  /\ hex12 "00:11:22:33:44:55" = false
  /\ hex12 "00112233445g" = false
  /\ hex12 "" = false.
Proof. vm_compute. repeat split. Qed.

Example MatchString_examples :
  regexp.MatchString deviceIdRegex "001122334455" = true
  /\ regexp.MatchString deviceIdRegex "x001122334455" = false
  /\ regexp.MatchString deviceIdRegex ("001122334455" ++ http.newline) = false.
Proof. vm_compute. repeat split. Qed.

(** A whole exchange: the JSON-RPC call without id is posted in an
    envelope that carries the generated identifier, and the payload of
    the backend's message comes back with status 200. *)
Example exchange :
  let st := Bench.run Bench.answering
              (Bench.request Bench.deviceID Bench.body_no_id) in
  http.status (rw st) = Some 200%Z
  /\ http.sent_header (rw st) "Content-Type" = Some ["application/json"]
  /\ http.body (rw st) = "{" ++ quoted "result" ++ ":1}"
  /\ envelopes (trace st)
     = [{| wrp.Type_ := wrp.SimpleRequestResponseMessageType;
           wrp.Source := "scytale2parodus";
           wrp.Destination := "mac:001122334455/Tasker";
           wrp.ContentType := "application/json";
           wrp.TransactionUUID := Bench.uuid;
           wrp.Payload := "{...}" |}]
  /\ backend_calls (trace st) = [Bench.posted].
Proof. vm_compute. repeat split. Qed.

Ltac unfold_run :=
  unfold PostCallHandler, PostCallHandler_on, forward, translateReply,
    http_NewRequest, logger_Error, logger_Warn, logger_Debug, http_Error,
    panic, exec, bind, ret, emit, on_writer, start, io.ReadAll in *;
  cbn [rw trace fst snd app] in *.

Section DeviceId.

Lemma in_class_hex c :
  regexp.in_class [("0", "9"); ("A", "F"); ("a", "f")]%char c = is_hex_digit c.
Proof.
  unfold regexp.in_class, is_hex_digit. simpl.
  change (code "0") with 48%N. change (code "9") with 57%N.
  change (code "A") with 65%N. change (code "F") with 70%N.
  change (code "a") with 97%N. change (code "f") with 102%N.
  rewrite orb_false_r, orb_assoc. reflexivity.
Qed.

Lemma anchored_never_later r s :
  regexp.matches_later (regexp.Concat regexp.BeginText r) s = false.
Proof. induction s as [|c s IH]; simpl; [reflexivity | exact IH]. Qed.

Lemma matches_repeat_class rs n : forall st s k,
  regexp.matches (regexp.Repeat n (regexp.CharClass rs)) st s k
  = repeat_class rs n st s k.
Proof.
  induction n as [|n IH]; intros st s k; [reflexivity|].
  simpl. destruct s as [|c tl]; [reflexivity|].
  f_equal. apply (IH false tl k).
Qed.

(** The pattern accepts exactly the strings of twelve hexadecimal
    characters. *)
Lemma deviceIdRegex_spec s : regexp.MatchString deviceIdRegex s = hex12 s.
Proof.
  unfold regexp.MatchString, deviceIdRegex.
  rewrite anchored_never_later, orb_false_r.
  change (regexp.matches _ true s _) with
    (regexp.matches
       (regexp.Repeat 12
          (regexp.CharClass [("0", "9"); ("A", "F"); ("a", "f")]%char))
       true s (fun _ s' => (s' =? "") && true)).
  rewrite matches_repeat_class. unfold hex12.
  do 12 (destruct s as [|? s]; [reflexivity|];
         cbn [repeat_class String.length list_ascii_of_string forallb Nat.eqb];
         rewrite in_class_hex;
         match goal with
         | |- (?a && _) = _ =>
             destruct a; cbn [andb]; [| rewrite ?andb_false_r; reflexivity]
         end).
  destruct s; reflexivity.
Qed.

End DeviceId.

Lemma status_of_Error msg code :
  http.status (http.Error msg code http.fresh) = Some code.
Proof. reflexivity. Qed.


Lemma reject_invalid_deviceID (ext : Extern) (u : DeviceServer) (id : string)
    (r : http.Request) (W : Type) `{!http.ResponseWriter W} (w : W) :
  hex12 (http.Vars r !!! "deviceID") = false ->
  exec (PostCallHandler ext u id W _ r) (start w)
  = {| rw := http.Error
               "Invalid device ID: must be a 12-character hexadecimal MAC address"
               http.StatusBadRequest w;
       trace := [EvLog (zap.entry (log u) zap.ErrorLevel
                          "Invalid device ID format"
                          [zap.String_ "device_id" (http.Vars r !!! "deviceID")])] |}.
Proof.
  intros Hbad. unfold_run. rewrite deviceIdRegex_spec, Hbad. reflexivity.
Qed.

(** C3. A device id that is not exactly twelve hexadecimal characters is
    answered 400 whatever the body holds; nothing is handed to the WRP
    encoder and nothing is posted to the backend. *)
Theorem invalid_deviceID_is_400 (ext : Extern) (u : DeviceServer) (id : string)
    (r : http.Request) (W : Type) `{!http.ResponseWriter W} (w : W) :
  hex12 (http.Vars r !!! "deviceID") = false ->
  let msg := "Invalid device ID: must be a 12-character hexadecimal MAC address" in
  let st := exec (PostCallHandler ext u id W _ r) (start w) in
  rw st = http.Error msg http.StatusBadRequest w
  /\ envelopes (trace st) = []
  /\ backend_calls (trace st) = []
  /\ (forall b, exec (PostCallHandler ext u id W _ (with_body r b)) (start w) = st)
  /\ http.status
       (rw (exec (PostCallHandler ext u id http.response _ r) (start http.fresh)))
     = Some 400%Z.
Proof.
  intros Hbad msg st. subst st msg.
  rewrite !reject_invalid_deviceID by exact Hbad.
  repeat split. intros b.
  exact (reject_invalid_deviceID ext u id (with_body r b) W w Hbad).
Qed.

Lemma invalid_deviceID_is_400_witness :
  rw (Bench.run Bench.answering
        (Bench.request "00:11:22:33:44:55" Bench.body_no_id))
  = http.Error
      "Invalid device ID: must be a 12-character hexadecimal MAC address"
      400 http.fresh.
Proof.
  refine (proj1 (invalid_deviceID_is_400 Bench.ext Bench.answering Bench.uuid
                   (Bench.request "00:11:22:33:44:55" Bench.body_no_id)
                   http.response http.fresh _)).
  vm_compute; reflexivity.
Defined.

(** ** The rate limiter *)

(** C9. When [limiter.Wait] fails and the request's context is done, the
    request ends with nothing written and nothing logged; when it fails
    and the context is not done, the client gets 429; when it succeeds,
    the wrapped handler runs as it would alone. *)
Theorem rateLimit_outcomes (logger : zap.Logger) (limiter : Verdict)
    (next : Handler) (r : http.Request) (W : Type) `{!http.ResponseWriter W}
    (w : W) :
  let st := exec (rateLimitMiddleware logger limiter next W _ r) (start w) in
  (forall e c, limiter_Wait limiter = Some e -> ctx_Err limiter = Some c ->
     st = start w)
  /\ (forall e, limiter_Wait limiter = Some e -> ctx_Err limiter = None ->
        rw st = http.Error "Too Many Requests" http.StatusTooManyRequests w
        /\ trace st
           = [EvLog (zap.entry logger zap.ErrorLevel "Rate limit exceeded"
                       [zap.String_ "path" (http.URL_Path r); zap.Error e])])
  /\ (limiter_Wait limiter = None ->
        rateLimitMiddleware logger limiter next W _ r = next W _ r).
Proof.
  intros st. subst st. unfold rateLimitMiddleware.
  split; [|split].
  - intros e c -> ->. reflexivity.
  - intros e -> ->. split; reflexivity.
  - intros ->. reflexivity.
Qed.

Lemma rateLimit_outcomes_witness :
  let cancelled := {| limiter_Wait := Some (ErrorString "context canceled");
                      ctx_Err := Some (ErrorString "context canceled") |} in
  let refused := {| limiter_Wait := Some (ErrorString "rate: Wait(n=1) exceeds limiter's burst 0");
                    ctx_Err := None |} in
  let granted := {| limiter_Wait := None; ctx_Err := None |} in
  let logger := {| zap.context := [] |} in
  let r := Bench.request "001122334455" Bench.body_no_id in
  exec (rateLimitMiddleware logger cancelled noContent http.response _ r)
    (start http.fresh) = start http.fresh
  /\ http.status
       (rw (exec (rateLimitMiddleware logger refused noContent http.response _ r)
              (start http.fresh))) = Some 429%Z
  /\ http.status
       (rw (exec (rateLimitMiddleware logger granted noContent http.response _ r)
              (start http.fresh))) = Some 204%Z.
Proof.
  intros cancelled refused granted logger r.
  split; [|split].
  - exact (proj1 (rateLimit_outcomes logger cancelled noContent r
                    http.response http.fresh) _ _ eq_refl eq_refl).
  - rewrite (proj1 (proj1 (proj2 (rateLimit_outcomes logger refused noContent r
                       http.response http.fresh)) _ eq_refl eq_refl)).
    reflexivity.
  - rewrite (proj2 (proj2 (rateLimit_outcomes logger granted noContent r
                       http.response http.fresh)) eq_refl).
    reflexivity.
Defined.

(** ** Sampled metrics *)

(** What [metricsMiddleware] leaves: the writer the wrapped handler
    left inside the wrapper, and the wrapped handler's trace followed by
    the two metric calls when the draw is below the rate. *)
Lemma metrics_writer (handlerName : string) (rand : Sample) (next : Handler)
    (r : http.Request) (W : Type) `{!http.ResponseWriter W} (st : St W) :
  rw (exec (metricsMiddleware handlerName rand next W _ r) st)
  = ResponseWriter (rw (exec (next (responseWriter W) _ r) (wrap st))).
Proof.
  unfold metricsMiddleware, exec, wrap.
  destruct (next (responseWriter W) _ r _) as [[] st'].
  destruct (SFltb _ _); reflexivity.
Qed.

Lemma metrics_trace (handlerName : string) (rand : Sample) (next : Handler)
    (r : http.Request) (W : Type) `{!http.ResponseWriter W} (st : St W) :
  let inner := exec (next (responseWriter W) _ r) (wrap st) in
  trace (exec (metricsMiddleware handlerName rand next W _ r) st)
  = (trace inner ++
     if SFltb (rand_Float64 rand) sampling
     then [EvObserve (labels_of handlerName r inner) (elapsed rand);
           EvInc (labels_of handlerName r inner)]
     else [])%list.
Proof.
  unfold metricsMiddleware, exec, wrap, labels_of.
  destruct (next (responseWriter W) _ r _) as [[] st'].
  destruct (SFltb _ _); cbn.
  - rewrite <- app_assoc. reflexivity.
  - rewrite app_nil_r. reflexivity.
Qed.


(** The draw 0.05 is below the constant, the draw 0.5 is not; the
    constant is the float64 of the literal 0.1. *)
Lemma sampling_draws :
  strconv.ParseFloat "0.1" = inr sampling
  /\ (forall f, strconv.ParseFloat "0.05" = inr f -> SFltb f sampling = true)
  /\ (forall f, strconv.ParseFloat "0.5" = inr f -> SFltb f sampling = false).
Proof.
  split; [vm_compute; reflexivity|].
  split; intros f Hf; vm_compute in Hf; injection Hf as <-; reflexivity.
Qed.

(** ** The route *)

(** [http.Error] through the status-capturing wrapper is [http.Error] on
    the writer inside, and the wrapper remembers the code. *)
Lemma Error_on_wrapper (W : Type) `{!http.ResponseWriter W} (msg : string)
    (code c : Z) (w : W) :
  code <> 0%Z ->
  http.Error msg code {| ResponseWriter := w; statusCode := c |}
  = {| ResponseWriter := http.Error msg code w; statusCode := code |}.
Proof.
  intros Hcode. unfold http.Error. cbn.
  unfold responseWriter_Write, responseWriter_WriteHeader. cbn.
  destruct (code =? 0)%Z eqn:E; [apply Z.eqb_eq in E; contradiction|].
  reflexivity.
Qed.

(** On the route, a request abandoned in the limiter leaves the client's
    writer as it was. *)
Lemma cancelled_on_route (ext : Extern) (logger : zap.Logger)
    (u : DeviceServer) (rand : Sample) (limiter : Verdict) (id : string)
    (r : http.Request) (W : Type) `{!http.ResponseWriter W} (w : W)
    (e c : error) :
  limiter_Wait limiter = Some e ->
  ctx_Err limiter = Some c ->
  let st := exec (sendRoute ext logger u rand limiter id W _ r) (start w) in
  rw st = w /\ backend_calls (trace st) = [] /\ uuids (trace st) = [].
Proof.
  intros Hwait Hctx st. subst st. unfold sendRoute.
  assert (Hinner :
    exec (rateLimitMiddleware logger limiter (PostCallHandler ext u id)
            (responseWriter W) _ r) (wrap (start w))
    = wrap (start w))
    by (unfold rateLimitMiddleware; rewrite Hwait, Hctx; reflexivity).
  split; [|split].
  - rewrite metrics_writer, Hinner. reflexivity.
  - unfold backend_calls. rewrite metrics_trace, Hinner. cbn.
    destruct (SFltb _ _); reflexivity.
  - unfold uuids. rewrite metrics_trace, Hinner. cbn.
    destruct (SFltb _ _); reflexivity.
Qed.

(** On the route, a request the limiter lets through with a device id
    that is not twelve hexadecimal characters is answered 400, and the
    sampled label is that status. *)
Lemma invalid_deviceID_on_route (ext : Extern) (logger : zap.Logger)
    (u : DeviceServer) (rand : Sample) (limiter : Verdict) (id : string)
    (r : http.Request) (W : Type) `{!http.ResponseWriter W} (w : W) :
  limiter_Wait limiter = None ->
  hex12 (http.Vars r !!! "deviceID") = false ->
  let st := exec (sendRoute ext logger u rand limiter id W _ r) (start w) in
  rw st
  = http.Error
      "Invalid device ID: must be a 12-character hexadecimal MAC address"
      http.StatusBadRequest w
  /\ backend_calls (trace st) = [].
Proof.
  intros Hwait Hbad st. subst st. unfold sendRoute.
  assert (Hinner :
    exec (rateLimitMiddleware logger limiter (PostCallHandler ext u id)
            (responseWriter W) _ r) (wrap (start w))
    = {| rw := {| ResponseWriter :=
                    http.Error
                      "Invalid device ID: must be a 12-character hexadecimal MAC address"
                      http.StatusBadRequest w;
                  statusCode := http.StatusBadRequest |};
         trace := [EvLog (zap.entry (log u) zap.ErrorLevel
                            "Invalid device ID format"
                            [zap.String_ "device_id"
                               (http.Vars r !!! "deviceID")])] |}).
  { unfold rateLimitMiddleware. rewrite Hwait.
    change (wrap (start w))
      with (start {| ResponseWriter := w; statusCode := http.StatusOK |}).
    rewrite (reject_invalid_deviceID ext u id r (responseWriter W) _ Hbad).
    rewrite Error_on_wrapper by discriminate. reflexivity. }
  split.
  - rewrite metrics_writer, Hinner. reflexivity.
  - unfold backend_calls. rewrite metrics_trace, Hinner. cbn.
    destruct (SFltb _ _); reflexivity.
Qed.

(** ** The translation pipeline *)

Ltac case_step :=
  match goal with
  | |- context [match ?x with _ => _ end] => destruct x eqn:?
  end.

(** A request with a valid device id and a readable body that decodes to
    [dr] goes on to line 83. *)
Lemma past_parsing (ext : Extern) (u : DeviceServer) (id : string)
    (r : http.Request) (W : Type) `{!http.ResponseWriter W} (w : W)
    (dr : RpcRequest) :
  hex12 (http.Vars r !!! "deviceID") = true ->
  io.failure (io.LimitReader (http.Body r) MaxBodySize) = None ->
  json.Unmarshal (truncated r) = inr dr ->
  exec (PostCallHandler ext u id W _ r) (start w)
  = match injectID dr id with
    | None => {| rw := w;
                 trace := [EvUUID id;
                           EvPanic "assignment to entry in nil map"] |}
    | Some dr' =>
        exec (forward ext u (http.Vars r !!! "deviceID")
                (http.Vars r !!! "service") id dr')
          {| rw := w; trace := [EvUUID id] |}
    end.
Proof.
  intros Hid Hread Hjson. unfold truncated in Hjson.
  unfold PostCallHandler, PostCallHandler_on, exec, bind, emit, panic, start,
    io.ReadAll.
  rewrite deviceIdRegex_spec, Hid. cbn [negb]. rewrite Hread, Hjson.
  cbn [rw trace fst snd]. destruct (injectID dr id); reflexivity.
Qed.

(** What [forward] hands to the serialiser and to the encoder. *)
Lemma forward_envelope (ext : Extern) (u : DeviceServer)
    (deviceID service id : string) (dr : RpcRequest)
    (W : Type) `{!http.ResponseWriter W} (w : W) :
  let st := exec (forward ext u deviceID service id dr)
              {| rw := w; trace := [EvUUID id] |} in
  let envelope p :=
    {| wrp.Type_ := wrp.SimpleRequestResponseMessageType;
       wrp.Source := "scytale2parodus";
       wrp.Destination := "mac:" ++ deviceID ++ "/" ++ service;
       wrp.ContentType := "application/json";
       wrp.TransactionUUID := id;
       wrp.Payload := p |} in
  uuids (trace st) = [id]
  /\ marshalled (trace st) = [dr]
  /\ envelopes (trace st)
     = match json_Marshal ext dr with
       | inr p => [envelope p]
       | inl _ => []
       end.
Proof.
  intros st envelope. subst st envelope. unfold_run.
  repeat (case_step; cbn [rw trace fst snd app]); cbn; repeat split.
Qed.

(** [translateReply] posts nothing and reads no more identifiers. *)
Lemma translateReply_calls (ext : Extern) (l : zap.Logger)
    (resp : http.Response) (W : Type) `{!http.ResponseWriter W} (st0 : St W) :
  backend_calls (trace (exec (translateReply ext l resp) st0))
  = backend_calls (trace st0).
Proof.
  unfold_run. unfold backend_calls.
  repeat (case_step; cbn [rw trace fst snd]);
    rewrite ?omap_app; cbn; rewrite ?app_nil_r; reflexivity.
Qed.

(** When the run posts [req] and the backend answers [resp], the rest of
    the run is [translateReply] on that answer, and nothing was handed to
    the decoder before. *)
Lemma backend_reply (ext : Extern) (u : DeviceServer) (id : string)
    (r : http.Request) (W : Type) `{!http.ResponseWriter W} (w : W)
    (req : http.ClientRequest) (resp : http.Response) :
  req ∈ backend_calls (trace (exec (PostCallHandler ext u id W _ r) (start w))) ->
  client u req = inr resp ->
  exists logEntry pre,
    exec (PostCallHandler ext u id W _ r) (start w)
    = exec (translateReply ext logEntry resp) {| rw := w; trace := pre |}
    /\ decodes pre = [].
Proof.
  unfold PostCallHandler, PostCallHandler_on, forward, http_NewRequest,
    logger_Error, logger_Warn, logger_Debug, http_Error, panic, exec,
    bind, ret, emit, on_writer, start, io.ReadAll.
  cbn [rw trace fst snd app].
  intros Hin Hresp.
  repeat (case_step; cbn [rw trace fst snd app] in * );
    try (cbn in Hin; apply elem_of_nil in Hin; contradiction).
  - cbn in Hin. apply list_elem_of_singleton in Hin. subst req.
    congruence.
  - match type of Hin with
    | context [snd (translateReply ?e ?l ?rp ?s)] =>
        change (snd (translateReply e l rp s))
          with (exec (translateReply e l rp) s) in Hin
    end.
    rewrite translateReply_calls in Hin. cbn in Hin.
    apply list_elem_of_singleton in Hin. subst req.
    rewrite Hresp in *. 
    match goal with H : inr _ = inr _ |- _ => injection H as <- end.
    eexists _, _. split; [reflexivity|]. reflexivity.
Qed.

Ltac unfold_reply :=
  unfold translateReply, logger_Error, logger_Warn, logger_Debug, http_Error,
    exec, bind, ret, emit, on_writer.


(** C5. A backend reply with a status in [200,400) that decodes: an empty
    payload is answered 502; a non-empty payload is written as it is,
    under content type application/json and status 200. *)
Theorem decoded_payload_passthrough (ext : Extern) (u : DeviceServer)
    (id : string) (r : http.Request) (W : Type) `{!http.ResponseWriter W}
    (w : W) (req : http.ClientRequest) (resp : http.Response)
    (reply : wrp.Message) :
  let st := exec (PostCallHandler ext u id W _ r) (start w) in
  let payload := wrp.Payload reply in
  let served := http.Write payload
                  (http.Header_Set "Content-Type" "application/json" http.fresh) in
  req ∈ backend_calls (trace st) ->
  client u req = inr resp ->
  accepted (http.StatusCode resp) ->
  wrp_Decode ext (http.RespBody resp) = inr reply ->
  (payload = "" ->
     rw st = http.Error "Empty response from Scytale" http.StatusBadGateway w
     /\ http.status
          (http.Error "Empty response from Scytale" http.StatusBadGateway
             http.fresh) = Some 502%Z)
  /\ (payload <> "" ->
        rw st = http.Write payload
                  (http.Header_Set "Content-Type" "application/json" w)
        /\ http.status served = Some 200%Z
        /\ http.sent_header served "Content-Type" = Some ["application/json"]
        /\ http.body served = payload).
Proof.
  intros st payload served Hin Hresp Hcode Hdec. subst st payload served.
  destruct (backend_reply ext u id r W w req resp Hin Hresp)
    as (logEntry & pre & -> & Hpre).
  unfold accepted in Hcode.
  unfold_reply.
  replace ((http.StatusCode resp <? 200)%Z || (400 <=? http.StatusCode resp)%Z)
    with false by (symmetry; apply orb_false_iff; lia).
  cbn [rw trace fst snd]. rewrite Hdec. cbn [rw trace fst snd].
  split.
  - intros ->. cbn. split; reflexivity.
  - intros Hne. apply String.eqb_neq in Hne. rewrite Hne.
    cbn [rw trace fst snd]. repeat split.
Qed.

(** C6. A backend reply with a status in [200,400) whose body the decoder
    rejects is answered 400. *)
Theorem undecodable_reply_is_400 (ext : Extern) (u : DeviceServer)
    (id : string) (r : http.Request) (W : Type) `{!http.ResponseWriter W}
    (w : W) (req : http.ClientRequest) (resp : http.Response) (err : error) :
  let st := exec (PostCallHandler ext u id W _ r) (start w) in
  req ∈ backend_calls (trace st) ->
  client u req = inr resp ->
  accepted (http.StatusCode resp) ->
  wrp_Decode ext (http.RespBody resp) = inl err ->
  rw st = http.Error "Failed to decode Scytale response" http.StatusBadRequest w
  /\ http.status
       (http.Error "Failed to decode Scytale response" http.StatusBadRequest
          http.fresh) = Some 400%Z.
Proof.
  intros st Hin Hresp Hcode Hdec. subst st.
  destruct (backend_reply ext u id r W w req resp Hin Hresp)
    as (logEntry & pre & -> & Hpre).
  unfold accepted in Hcode.
  unfold_reply.
  replace ((http.StatusCode resp <? 200)%Z || (400 <=? http.StatusCode resp)%Z)
    with false by (symmetry; apply orb_false_iff; lia).
  cbn [rw trace fst snd]. rewrite Hdec. cbn [rw trace fst snd].
  split; reflexivity.
Qed.

(** ** The id of a JSON-RPC message *)

Lemma injectID_fills (m : gmap string json.any) (v id : string) :
  m !! "jsonrpc" = Some (json.AString v) ->
  (m !! "id" = None \/ m !! "id" = Some (json.AString "")) ->
  injectID (Some m) id = Some (Some (<["id" := json.AString id]> m)).
Proof.
  intros Hrpc Hid. unfold injectID, json.index. cbn.
  rewrite Hrpc. cbn. destruct Hid as [-> | ->]; reflexivity.
Qed.

Lemma injectID_plain (m : gmap string json.any) (id : string) :
  (forall v, m !! "jsonrpc" <> Some (json.AString v)) ->
  injectID (Some m) id = Some (Some m).
Proof.
  intros Hrpc. unfold injectID, json.index. cbn.
  destruct (m !! "jsonrpc") as [[]|] eqn:E; cbn; try reflexivity.
  exfalso. exact (Hrpc _ eq_refl).
Qed.

(** An [id] that is present but is no string is replaced as an absent
    one is. *)
Lemma injectID_overwrites (m : gmap string json.any) (v id : string)
    (x : json.any) :
  m !! "jsonrpc" = Some (json.AString v) ->
  m !! "id" = Some x ->
  (forall s, x <> json.AString s) ->
  injectID (Some m) id = Some (Some (<["id" := json.AString id]> m)).
Proof.
  intros Hrpc Hid Hx. unfold injectID, json.index. cbn.
  rewrite Hrpc, Hid. cbn. destruct x; cbn; try reflexivity.
  exfalso. exact (Hx _ eq_refl).
Qed.

(** C1. In a JSON-RPC object whose [id] is absent or the empty string,
    the handler sets [id] to the one identifier it generated, and every
    envelope it builds carries that same identifier as [TransactionUUID]
    and the serialised object, with that [id], as payload. *)
Theorem generated_id_is_transaction_uuid (ext : Extern) (u : DeviceServer)
    (id : string) (r : http.Request) (W : Type) `{!http.ResponseWriter W}
    (w : W) (m : gmap string json.any) (v : string) :
  let st := exec (PostCallHandler ext u id W _ r) (start w) in
  let m' := <["id" := json.AString id]> m in
  hex12 (http.Vars r !!! "deviceID") = true ->
  io.failure (io.LimitReader (http.Body r) MaxBodySize) = None ->
  json.Unmarshal (truncated r) = inr (Some m) ->
  m !! "jsonrpc" = Some (json.AString v) ->
  (m !! "id" = None \/ m !! "id" = Some (json.AString "")) ->
  uuids (trace st) = [id]
  /\ marshalled (trace st) = [Some m']
  /\ m' !! "id" = Some (json.AString id)
  /\ (forall msg, msg ∈ envelopes (trace st) ->
        wrp.TransactionUUID msg = id
        /\ json_Marshal ext (Some m') = inr (wrp.Payload msg)
        /\ m' !! "id" = Some (json.AString (wrp.TransactionUUID msg)))
  /\ (forall p, json_Marshal ext (Some m') = inr p ->
        exists msg, envelopes (trace st) = [msg]
                    /\ wrp.TransactionUUID msg = id /\ wrp.Payload msg = p).
Proof.
  intros st m' Hdev Hread Hjson Hrpc Hid. subst st.
  rewrite (past_parsing ext u id r W w _ Hdev Hread Hjson).
  rewrite (injectID_fills m v id Hrpc Hid). fold m'.
  destruct (forward_envelope ext u (http.Vars r !!! "deviceID")
              (http.Vars r !!! "service") id (Some m') W w)
    as (Hu & Hm & He).
  rewrite Hu, Hm, He.
  assert (Hlk : m' !! "id" = Some (json.AString id))
    by (subst m'; apply lookup_insert_eq).
  split; [reflexivity|]. split; [reflexivity|]. split; [exact Hlk|]. split.
  - intros msg Hin.
    destruct (json_Marshal ext (Some m'));
      [apply elem_of_nil in Hin; contradiction|].
    apply list_elem_of_singleton in Hin. subst msg.
    split; [reflexivity|]. split; [reflexivity | exact Hlk].
  - intros p ->. eexists. repeat split.
Qed.

(** C8. An object without a string-valued [jsonrpc] is serialised as it
    was decoded, whatever its [id]: that object, unchanged, is the payload
    of every envelope. *)
Theorem no_jsonrpc_no_injection (ext : Extern) (u : DeviceServer)
    (id : string) (r : http.Request) (W : Type) `{!http.ResponseWriter W}
    (w : W) (m : gmap string json.any) :
  let st := exec (PostCallHandler ext u id W _ r) (start w) in
  hex12 (http.Vars r !!! "deviceID") = true ->
  io.failure (io.LimitReader (http.Body r) MaxBodySize) = None ->
  json.Unmarshal (truncated r) = inr (Some m) ->
  (forall v, m !! "jsonrpc" <> Some (json.AString v)) ->
  marshalled (trace st) = [Some m]
  /\ (forall msg, msg ∈ envelopes (trace st) ->
        json_Marshal ext (Some m) = inr (wrp.Payload msg))
  /\ (forall p, json_Marshal ext (Some m) = inr p ->
        exists msg, envelopes (trace st) = [msg] /\ wrp.Payload msg = p).
Proof.
  intros st Hdev Hread Hjson Hrpc. subst st.
  rewrite (past_parsing ext u id r W w _ Hdev Hread Hjson).
  rewrite (injectID_plain m id Hrpc).
  destruct (forward_envelope ext u (http.Vars r !!! "deviceID")
              (http.Vars r !!! "service") id (Some m) W w)
    as (Hu & Hm & He).
  rewrite Hm, He. split; [reflexivity|]. split.
  - intros msg Hin.
    destruct (json_Marshal ext (Some m)); [apply elem_of_nil in Hin; contradiction|].
    apply list_elem_of_singleton in Hin. subst msg. reflexivity.
  - intros p ->. eexists. split; reflexivity.
Qed.

(** ** Which bodies pass the parser *)

Lemma injectID_of_object (m : gmap string json.any) (id : string) :
  exists m', injectID (Some m) id = Some (Some m').
Proof.
  unfold injectID, json.index, json.assign. cbn.
  destruct (snd (json.assert_string _)); [|eauto].
  destruct (json.assert_string _) as [s ok].
  destruct (negb ok || (s =? "")); eauto.
Qed.

(** The assignment of line 87 never meets a nil map: the guard of line
    85 has found a key in it. *)
Lemma injectID_never_panics (dr : RpcRequest) (id : string) :
  injectID dr id <> None.
Proof.
  destruct dr as [m|]; [|discriminate].
  destruct (injectID_of_object m id) as [m' ->]. discriminate.
Qed.

Lemma Unmarshal_rejects (body : bytes) :
  json.parse body <> Some json.Null ->
  ~ is_json_object body ->
  exists e, json.Unmarshal body = inl e.
Proof.
  intros Hnull Hobj. unfold json.Unmarshal, is_json_object in *.
  destruct (json.parse body) as [[]|]; eauto.
  - contradiction.
  - exfalso. apply Hobj. eauto.
Qed.

(** Induction on JSON values, through the lists they nest. *)
Lemma value_ind' (P : json.value -> Prop) :
  P json.Null ->
  (forall b, P (json.Bool b)) ->
  (forall lit, P (json.Number lit)) ->
  (forall s, P (json.Str s)) ->
  (forall elems, Forall P elems -> P (json.Array elems)) ->
  (forall members, Forall (fun kv => P (snd kv)) members ->
     P (json.Object members)) ->
  forall v, P v.
Proof.
  intros Hn Hb Hnum Hs Ha Ho.
  fix IH 1. intros [ | b | lit | s | elems | members].
  - exact Hn.
  - apply Hb.
  - apply Hnum.
  - apply Hs.
  - apply Ha.
    induction elems as [|x l IHl]; constructor; [apply IH | exact IHl].
  - apply Ho.
    induction members as [|[k x] l IHl]; constructor; [apply IH | exact IHl].
Qed.

(** A value converts to a Go value exactly when its numbers fit. *)
Lemma to_any_total_iff (v : json.value) :
  numbers_fit v = true <-> exists a, json.to_any v = inr a.
Proof.
  induction v as [ | b | lit | s | elems IH | members IH] using value_ind'.
  - cbn. split; eauto.
  - cbn. split; eauto.
  - cbn. unfold fits_float64.
    destruct (strconv.ParseFloat lit); split; eauto.
    + discriminate.
    + intros [a Ha]. discriminate.
  - cbn. split; eauto.
  - cbn [numbers_fit json.to_any].
    induction IH as [|x l Hx Hl IHl].
    + cbn. split; eauto.
    + cbn [forallb]. rewrite andb_true_iff, Hx, IHl. split.
      * intros [[a Ha] [b Hb]]. rewrite Ha.
        match type of Hb with
        | sum_map _ _ ?g = _ => destruct g eqn:E
        end; [discriminate|]. cbn. eauto.
      * intros [b Hb].
        destruct (json.to_any x) eqn:Ex; [discriminate|].
        match type of Hb with
        | sum_map _ _ (match ?g with _ => _ end) = _ => destruct g eqn:E
        end; [discriminate|]. split; eauto.
  - cbn [numbers_fit json.to_any].
    generalize (∅ : gmap string json.any).
    induction IH as [|[k x] l Hx Hl IHl]; intros acc.
    + cbn. split; eauto.
    + cbn [snd] in Hx. rewrite andb_true_iff, Hx. split.
      * intros [[a Ha] Hrest]. rewrite Ha. apply IHl. exact Hrest.
      * intros [b Hb]. destruct (json.to_any x) eqn:Ex; [discriminate|].
        split; [eauto|]. apply (IHl (<[k:=a]> acc)). eauto.
Qed.

Lemma Unmarshal_accepts (body : bytes) (members : list (string * json.value)) :
  json.parse body = Some (json.Object members) ->
  numbers_fit (json.Object members) = true ->
  exists m, json.Unmarshal body = inr (Some m).
Proof.
  intros Hparse Hfit. apply to_any_total_iff in Hfit as [a Ha].
  unfold json.Unmarshal. rewrite Hparse, Ha.
  cbn [json.to_any] in Ha.
  match type of Ha with
  | sum_map _ _ ?x = _ => destruct x; cbn in Ha; [discriminate|]
  end.
  injection Ha as <-. eauto.
Qed.

Lemma Unmarshal_rejects_range (body : bytes)
    (members : list (string * json.value)) :
  json.parse body = Some (json.Object members) ->
  numbers_fit (json.Object members) = false ->
  exists e, json.Unmarshal body = inl e.
Proof.
  intros Hparse Hfit. unfold json.Unmarshal. rewrite Hparse.
  destruct (json.to_any (json.Object members)) as [e|a] eqn:Ha; [eauto|].
  assert (numbers_fit (json.Object members) = true)
    by (apply to_any_total_iff; eauto).
  congruence.
Qed.

(** The bodies [Unmarshal] takes: the literal [null], and the objects
    whose numbers fit. *)
Lemma Unmarshal_ok_iff (body : bytes) :
  (exists dr, json.Unmarshal body = inr dr)
  <-> json.parse body = Some json.Null
      \/ exists members, json.parse body = Some (json.Object members)
                         /\ numbers_fit (json.Object members) = true.
Proof.
  split.
  - intros [dr Hdr]. unfold json.Unmarshal in Hdr.
    destruct (json.parse body) as [[ | | | | | members]|] eqn:Hp;
      try discriminate; [left; reflexivity|].
    right. exists members. split; [reflexivity|].
    apply to_any_total_iff.
    destruct (json.to_any (json.Object members)); [discriminate | eauto].
  - intros [Hnull | (members & Hp & Hfit)].
    + exists None. unfold json.Unmarshal. rewrite Hnull. reflexivity.
    + destruct (Unmarshal_accepts body members Hp Hfit) as [m Hm]. eauto.
Qed.

(** A failed [Unmarshal] ends the request with the parse failure. *)
Lemma reject_unparsed (ext : Extern) (u : DeviceServer) (id : string)
    (r : http.Request) (W : Type) `{!http.ResponseWriter W} (w : W)
    (e : json.error) :
  hex12 (http.Vars r !!! "deviceID") = true ->
  io.failure (io.LimitReader (http.Body r) MaxBodySize) = None ->
  json.Unmarshal (truncated r) = inl e ->
  exec (PostCallHandler ext u id W _ r) (start w)
  = {| rw := http.Error "Failed to parse JSON" http.StatusBadRequest w;
       trace := [EvLog (zap.entry (log u) zap.ErrorLevel
                          "Failed to unmarshal JSON"
                          [zap.String_ "device_id" (http.Vars r !!! "deviceID");
                           zap.Error (JSONError e)])] |}.
Proof.
  intros Hdev Hread He. unfold truncated in He. unfold_run.
  rewrite deviceIdRegex_spec, Hdev. cbn [negb]. rewrite Hread, He.
  reflexivity.
Qed.

(** C7, as the code has it.  Of the readable bodies sent to a valid device
    id: one that is neither a JSON object nor the literal [null] is
    answered 400 as a parse failure before any identifier is generated,
    any envelope built or anything posted; a JSON object whose numbers all
    fit a float64 goes past parsing, to the generation of the request
    identifier and the serialisation of the object; a JSON object with a
    number out of that range is refused like the first. *)
Theorem parse_gate (ext : Extern) (u : DeviceServer) (id : string)
    (r : http.Request) (W : Type) `{!http.ResponseWriter W} (w : W) :
  let st := exec (PostCallHandler ext u id W _ r) (start w) in
  let refused :=
    rw st = http.Error "Failed to parse JSON" http.StatusBadRequest w
    /\ uuids (trace st) = []
    /\ envelopes (trace st) = []
    /\ backend_calls (trace st) = [] in
  hex12 (http.Vars r !!! "deviceID") = true ->
  io.failure (io.LimitReader (http.Body r) MaxBodySize) = None ->
  (json.parse (truncated r) <> Some json.Null ->
   ~ is_json_object (truncated r) ->
     refused)
  /\ (forall members,
        json.parse (truncated r) = Some (json.Object members) ->
        numbers_fit (json.Object members) = true ->
        uuids (trace st) = [id]
        /\ exists m m', json.Unmarshal (truncated r) = inr (Some m)
                        /\ marshalled (trace st) = [Some m'])
  /\ (forall members,
        json.parse (truncated r) = Some (json.Object members) ->
        numbers_fit (json.Object members) = false ->
        refused).
Proof.
  intros st refused Hdev Hread. subst refused st. split; [|split].
  - intros Hnull Hobj.
    destruct (Unmarshal_rejects _ Hnull Hobj) as [e He].
    rewrite (reject_unparsed ext u id r W w e Hdev Hread He).
    repeat split.
  - intros members Hparse Hfit.
    destruct (Unmarshal_accepts _ _ Hparse Hfit) as [m Hm].
    rewrite (past_parsing ext u id r W w _ Hdev Hread Hm).
    destruct (injectID_of_object m id) as [m' ->].
    destruct (forward_envelope ext u (http.Vars r !!! "deviceID")
                (http.Vars r !!! "service") id (Some m') W w)
      as (Hu & Hma & He).
    split; [exact Hu|]. exists m, m'. split; [exact Hm | exact Hma].
  - intros members Hparse Hfit.
    destruct (Unmarshal_rejects_range _ _ Hparse Hfit) as [e He].
    rewrite (reject_unparsed ext u id r W w e Hdev Hread He).
    repeat split.
Qed.

(** The literal [null] decodes to a nil map without error, so the handler
    goes on with it, whatever the black boxes are. *)
Lemma null_body_proceeds (ext : Extern) (u : DeviceServer) (id : string)
    (r : http.Request) (W : Type) `{!http.ResponseWriter W} (w : W) :
  hex12 (http.Vars r !!! "deviceID") = true ->
  io.failure (io.LimitReader (http.Body r) MaxBodySize) = None ->
  json.parse (truncated r) = Some json.Null ->
  let st := exec (PostCallHandler ext u id W _ r) (start w) in
  uuids (trace st) = [id] /\ marshalled (trace st) = [None].
Proof.
  intros Hdev Hread Hparse st. subst st.
  assert (Hm : json.Unmarshal (truncated r) = inr None)
    by (unfold json.Unmarshal; rewrite Hparse; reflexivity).
  rewrite (past_parsing ext u id r W w _ Hdev Hread Hm).
  change (injectID None id) with (Some (@None (gmap string json.any))).
  destruct (forward_envelope ext u (http.Vars r !!! "deviceID")
              (http.Vars r !!! "service") id None W w) as (Hu & Hma & _).
  split; assumption.
Qed.

(** C7 as stated fails both ways.  The body [null] is no JSON object, yet
    it is not refused: an identifier is generated, an envelope with
    payload [null] is posted and the backend's answer comes back with
    200.  The body with the number [1e999] is a JSON object, yet it is
    refused with 400 before any identifier is generated. *)
Lemma parse_gate_counterexample :
  let st_null := Bench.run Bench.answering
                   (Bench.request Bench.deviceID Bench.body_null) in
  let st_huge := Bench.run Bench.answering
                   (Bench.request Bench.deviceID Bench.body_huge_number) in
  (~ is_json_object (truncated (Bench.request Bench.deviceID Bench.body_null))
   /\ http.status (rw st_null) = Some 200%Z
   /\ uuids (trace st_null) = [Bench.uuid]
   /\ map wrp.Payload (envelopes (trace st_null)) = ["null"]
   /\ length (backend_calls (trace st_null)) = 1%nat)
  /\ (is_json_object
        (truncated (Bench.request Bench.deviceID Bench.body_huge_number))
      /\ http.status (rw st_huge) = Some 400%Z
      /\ http.body (rw st_huge) = "Failed to parse JSON" ++ http.newline
      /\ uuids (trace st_huge) = []).
Proof.
  intros st_null st_huge. split.
  - split.
    + intros [members Hm]. vm_compute in Hm. discriminate.
    + vm_compute. repeat split.
  - split.
    + eexists. vm_compute. reflexivity.
    + vm_compute. repeat split.
Qed.

(** Whatever the black boxes are, a JSON-RPC object whose [id] is
    present but is no string is serialised with the generated identifier
    in its place. *)
Lemma nonstring_id_overwritten (ext : Extern) (u : DeviceServer)
    (id : string) (r : http.Request) (W : Type) `{!http.ResponseWriter W}
    (w : W) (m : gmap string json.any) (v : string) (x : json.any) :
  hex12 (http.Vars r !!! "deviceID") = true ->
  io.failure (io.LimitReader (http.Body r) MaxBodySize) = None ->
  json.Unmarshal (truncated r) = inr (Some m) ->
  m !! "jsonrpc" = Some (json.AString v) ->
  m !! "id" = Some x ->
  (forall s, x <> json.AString s) ->
  marshalled (trace (exec (PostCallHandler ext u id W _ r) (start w)))
  = [Some (<["id" := json.AString id]> m)].
Proof.
  intros Hdev Hread Hjson Hrpc Hid Hx.
  rewrite (past_parsing ext u id r W w _ Hdev Hread Hjson).
  rewrite (injectID_overwrites m v id x Hrpc Hid Hx).
  apply forward_envelope.
Qed.

(** C2, at a request with a numeric id.  The body decodes to an object
    whose [id] is the number 7; what the handler serialises has the
    generated identifier there instead. *)
Theorem numeric_id_is_overwritten :
  let st := Bench.run Bench.answering
              (Bench.request Bench.deviceID Bench.body_numeric_id) in
  let seven := S754_finite false 7881299347898368 (-50) in
  let m : gmap string json.any :=
    {[ "jsonrpc" := json.AString "2.0";
       "id" := json.AFloat64 seven;
       "method" := json.AString "x" ]} in
  json.Unmarshal Bench.body_numeric_id = inr (Some m)
  /\ m !! "id" = Some (json.AFloat64 seven)
  /\ marshalled (trace st) = [Some (<["id" := json.AString Bench.uuid]> m)]
  /\ map wrp.TransactionUUID (envelopes (trace st)) = [Bench.uuid].
Proof.
  vm_compute. repeat split.
Qed.

(** ** The theorems at work on the bench *)

Lemma generated_id_is_transaction_uuid_witness :
  uuids (trace (Bench.run Bench.answering
                  (Bench.request Bench.deviceID Bench.body_no_id)))
  = [Bench.uuid].
Proof.
  refine (proj1 (generated_id_is_transaction_uuid Bench.ext Bench.answering
                   Bench.uuid (Bench.request Bench.deviceID Bench.body_no_id)
                   http.response http.fresh
                   {[ "jsonrpc" := json.AString "2.0";
                      "method" := json.AString "x" ]}
                   "2.0" _ _ _ _ _)).
  - vm_compute; reflexivity.
  - vm_compute; reflexivity.
  - vm_compute; reflexivity.
  - vm_compute; reflexivity.
  - left; vm_compute; reflexivity.
Defined.

Lemma no_jsonrpc_no_injection_witness :
  marshalled (trace (Bench.run Bench.answering
                       (Bench.request Bench.deviceID Bench.body_plain)))
  = [Some {[ "id" := json.AFloat64 (S754_finite false 7881299347898368 (-50));
             "method" := json.AString "x" ]}].
Proof.
  refine (proj1 (no_jsonrpc_no_injection Bench.ext Bench.answering
                   Bench.uuid (Bench.request Bench.deviceID Bench.body_plain)
                   http.response http.fresh _ _ _ _ _)).
  - vm_compute; reflexivity.
  - vm_compute; reflexivity.
  - vm_compute; reflexivity.
  - intros v Hv. vm_compute in Hv. discriminate.
Defined.


Lemma decoded_payload_passthrough_witness :
  rw (Bench.run Bench.answering (Bench.request Bench.deviceID Bench.body_no_id))
  = http.Write ("{" ++ quoted "result" ++ ":1}")
      (http.Header_Set "Content-Type" "application/json" http.fresh).
Proof.
  refine (proj1 (proj2 (decoded_payload_passthrough Bench.ext Bench.answering
                   Bench.uuid (Bench.request Bench.deviceID Bench.body_no_id)
                   http.response http.fresh Bench.posted Bench.ok_reply
                   {| wrp.Type_ := wrp.SimpleRequestResponseMessageType;
                      wrp.Source := "mac:001122334455/Tasker";
                      wrp.Destination := "scytale2parodus";
                      wrp.ContentType := "application/json";
                      wrp.TransactionUUID := "";
                      wrp.Payload := "{" ++ quoted "result" ++ ":1}" |}
                   _ _ _ _) _)).
  - vm_compute; constructor.
  - reflexivity.
  - unfold accepted; cbn; lia.
  - vm_compute; reflexivity.
  - vm_compute; discriminate.
Defined.

Lemma undecodable_reply_is_400_witness :
  rw (Bench.run Bench.babbling (Bench.request Bench.deviceID Bench.body_no_id))
  = http.Error "Failed to decode Scytale response" 400 http.fresh.
Proof.
  refine (proj1 (undecodable_reply_is_400 Bench.ext Bench.babbling
                   Bench.uuid (Bench.request Bench.deviceID Bench.body_no_id)
                   http.response http.fresh Bench.posted
                   (Bench.reply 200 "200 OK" "garbage")
                   (ErrorString "msgpack: invalid code") _ _ _ _)).
  - vm_compute; constructor.
  - reflexivity.
  - unfold accepted; cbn; lia.
  - vm_compute; reflexivity.
Defined.

Lemma parse_gate_witness :
  rw (Bench.run Bench.answering (Bench.request Bench.deviceID "[1,2]"))
  = http.Error "Failed to parse JSON" 400 http.fresh
  /\ uuids (trace (Bench.run Bench.answering
                     (Bench.request Bench.deviceID Bench.body_no_id)))
     = [Bench.uuid]
  /\ rw (Bench.run Bench.answering
           (Bench.request Bench.deviceID Bench.body_huge_number))
     = http.Error "Failed to parse JSON" 400 http.fresh.
Proof.
  split; [|split].
  - refine (proj1 (proj1 (parse_gate Bench.ext Bench.answering Bench.uuid
                            (Bench.request Bench.deviceID "[1,2]")
                            http.response http.fresh _ _) _ _)).
    + vm_compute; reflexivity.
    + vm_compute; reflexivity.
    + vm_compute; discriminate.
    + intros [members Hm]. vm_compute in Hm. discriminate.
  - refine (proj1 (proj1 (proj2 (parse_gate Bench.ext Bench.answering Bench.uuid
                            (Bench.request Bench.deviceID Bench.body_no_id)
                            http.response http.fresh _ _))
                     [("jsonrpc", json.Str "2.0"); ("method", json.Str "x")]
                     _ _)).
    + vm_compute; reflexivity.
    + vm_compute; reflexivity.
    + vm_compute; reflexivity.
    + vm_compute; reflexivity.
  - refine (proj1 (proj2 (proj2 (parse_gate Bench.ext Bench.answering Bench.uuid
                            (Bench.request Bench.deviceID Bench.body_huge_number)
                            http.response http.fresh _ _))
                     [("a", json.Number "1e999")] _ _)).
    + vm_compute; reflexivity.
    + vm_compute; reflexivity.
    + vm_compute; reflexivity.
    + vm_compute; reflexivity.
Defined.

(** * Further properties of the code *)

(** The scrutinee of a match inside [t] that is itself free of matches;
    [t] when it holds none. *)
Ltac scrutinee t :=
  lazymatch t with
  | context [match ?x with _ => _ end] => scrutinee x
  | _ => t
  end.

Ltac case_inner :=
  lazymatch goal with
  | |- ?g =>
      let x := scrutinee g in
      lazymatch x with
      | g => fail "no match left"
      | _ => destruct x eqn:?
      end
  end.

(** Every path through [PostCallHandler], one goal each. *)
Ltac run_cases :=
  unfold_run; repeat (case_inner; cbn [rw trace fst snd app] in * ).

Ltac no_such Hin :=
  cbn in Hin; apply elem_of_nil in Hin; contradiction.

Ltac the_one Hin :=
  cbn in Hin; apply list_elem_of_singleton in Hin; subst.

Ltac nil_map_impossible :=
  exfalso; eapply injectID_never_panics; eassumption.

(** ** The device id pattern *)

(** X1. [deviceIdRegex] accepts a string exactly when it is twelve
    characters long and each of them is a hexadecimal digit, in either
    case. *)
Theorem deviceIdRegex_accepts_twelve_hex (s : string) :
  regexp.MatchString deviceIdRegex s = true
  <-> String.length s = 12%nat
      /\ Forall (fun c => is_hex_digit c = true) (list_ascii_of_string s).
Proof.
  rewrite deviceIdRegex_spec. unfold hex12.
  rewrite andb_true_iff, Nat.eqb_eq, forallb_forall, Forall_forall.
  split; intros [Hl Hf]; (split; [exact Hl|]); intros c Hc; apply Hf.
  - apply list_elem_of_In. exact Hc.
  - apply list_elem_of_In. exact Hc.
Qed.

(** ** Reading the body *)

(** X2. When reading the body fails within the first [MaxBodySize]
    bytes, the request is answered 400 with one log entry that carries the
    error; nothing is parsed, no identifier generated, nothing posted. *)
Theorem unreadable_body_is_400 (ext : Extern) (u : DeviceServer) (id : string)
    (r : http.Request) (W : Type) `{!http.ResponseWriter W} (w : W)
    (err : error) :
  hex12 (http.Vars r !!! "deviceID") = true ->
  io.failure (io.LimitReader (http.Body r) MaxBodySize) = Some err ->
  exec (PostCallHandler ext u id W _ r) (start w)
  = {| rw := http.Error "Failed to read request body" http.StatusBadRequest w;
       trace := [EvLog (zap.entry (log u) zap.ErrorLevel
                          "Failed to read request body"
                          [zap.String_ "device_id" (http.Vars r !!! "deviceID");
                           zap.Error err])] |}.
Proof.
  intros Hdev Hread. unfold_run.
  rewrite deviceIdRegex_spec, Hdev. cbn [negb]. rewrite Hread. reflexivity.
Qed.

Lemma take_app (d more : string) : forall n,
  io.shorter d n = false -> io.take n (d ++ more) = io.take n d.
Proof.
  induction d as [|c d IH]; intros n H.
  - cbn in H. apply N.ltb_ge in H. assert (n = 0%N) by lia. subst.
    destruct more; reflexivity.
  - change (String c d ++ more) with (String c (d ++ more)).
    cbn [io.take io.shorter] in *.
    destruct (n =? 0)%N; [reflexivity|]. f_equal. apply IH. exact H.
Qed.

Lemma shorter_app (d more : string) : forall n,
  io.shorter d n = false -> io.shorter (d ++ more) n = false.
Proof.
  induction d as [|c d IH]; intros n H.
  - cbn in H. apply N.ltb_ge in H. assert (n = 0%N) by lia. subst.
    destruct more; reflexivity.
  - change (String c d ++ more) with (String c (d ++ more)).
    cbn [io.take io.shorter] in *.
    destruct (n =? 0)%N; [reflexivity|]. apply IH. exact H.
Qed.

(** Past [n] bytes a limited reader looks at nothing: neither further
    bytes nor how the stream ends. *)
Lemma LimitReader_full (d more : string) (f f' : option error) (n : N) :
  io.shorter d n = false ->
  io.LimitReader {| io.data := d ++ more; io.failure := f |} n
  = io.LimitReader {| io.data := d; io.failure := f' |} n.
Proof.
  intros H. unfold io.LimitReader. cbn.
  rewrite take_app, shorter_app, H by exact H. reflexivity.
Qed.

(** Of a request the handler reads the route variables and the limited
    body, nothing else. *)
Lemma PostCallHandler_reads (ext : Extern) (u : DeviceServer) (id : string)
    (r1 r2 : http.Request) (W : Type) `{!http.ResponseWriter W} :
  http.Vars r1 = http.Vars r2 ->
  io.LimitReader (http.Body r1) MaxBodySize
  = io.LimitReader (http.Body r2) MaxBodySize ->
  PostCallHandler ext u id W _ r1 = PostCallHandler ext u id W _ r2.
Proof.
  intros Hv Hb. unfold PostCallHandler, PostCallHandler_on.
  rewrite Hv, Hb. reflexivity.
Qed.

(** X3. Once the body holds [MaxBodySize] bytes, what follows them
    changes nothing: with more bytes appended, or with the stream ending in
    an error, the request is handled as before. *)
Theorem body_beyond_limit_unread (ext : Extern) (u : DeviceServer)
    (id : string) (r : http.Request) (W : Type) `{!http.ResponseWriter W}
    (w : W) (more : bytes) (f : option error) :
  io.shorter (io.data (http.Body r)) MaxBodySize = false ->
  exec (PostCallHandler ext u id W _
          (with_body r {| io.data := io.data (http.Body r) ++ more;
                          io.failure := f |})) (start w)
  = exec (PostCallHandler ext u id W _ r) (start w).
Proof.
  intros Hfull. f_equal. apply PostCallHandler_reads; [reflexivity|].
  cbn [with_body http.Body].
  rewrite (LimitReader_full _ more f (io.failure (http.Body r)) _ Hfull).
  destruct (http.Body r); reflexivity.
Qed.

Lemma blank_is_no_json (data : bytes) :
  json.skip_space data = "" -> json.Unmarshal data = inl json.SyntaxError.
Proof.
  intros H. unfold json.Unmarshal, json.parse. rewrite H.
  replace (2 * String.length data + 2)%nat
    with (S (2 * String.length data + 1)) by lia.
  reflexivity.
Qed.

(** X4. An empty body, or one of white space only, is refused with 400
    as a parse failure, before any identifier is generated. *)
Theorem blank_body_is_400 (ext : Extern) (u : DeviceServer) (id : string)
    (r : http.Request) (W : Type) `{!http.ResponseWriter W} (w : W) :
  hex12 (http.Vars r !!! "deviceID") = true ->
  io.failure (io.LimitReader (http.Body r) MaxBodySize) = None ->
  json.skip_space (truncated r) = "" ->
  exec (PostCallHandler ext u id W _ r) (start w)
  = {| rw := http.Error "Failed to parse JSON" http.StatusBadRequest w;
       trace := [EvLog (zap.entry (log u) zap.ErrorLevel
                          "Failed to unmarshal JSON"
                          [zap.String_ "device_id" (http.Vars r !!! "deviceID");
                           zap.Error (JSONError json.SyntaxError)])] |}.
Proof.
  intros Hdev Hread Hblank.
  apply reject_unparsed; [exact Hdev | exact Hread |].
  apply blank_is_no_json. exact Hblank.
Qed.

(** X29. The handler reads a request through the route variables
    [deviceID] and [service] and through what the decoder makes of the
    limited body: two readable requests that agree on these are handled
    alike, whatever their method, their path and the bytes of their
    bodies. *)
Theorem same_decoding_same_run (ext : Extern) (u : DeviceServer) (id : string)
    (r1 r2 : http.Request) (W : Type) `{!http.ResponseWriter W} (w : W) :
  http.Vars r1 !!! "deviceID" = (http.Vars r2 !!! "deviceID" : string) ->
  http.Vars r1 !!! "service" = (http.Vars r2 !!! "service" : string) ->
  io.failure (io.LimitReader (http.Body r1) MaxBodySize) = None ->
  io.failure (io.LimitReader (http.Body r2) MaxBodySize) = None ->
  json.Unmarshal (truncated r1) = json.Unmarshal (truncated r2) ->
  exec (PostCallHandler ext u id W _ r1) (start w)
  = exec (PostCallHandler ext u id W _ r2) (start w).
Proof.
  intros Hdev Hsvc Hread1 Hread2 Hjson. unfold truncated in Hjson.
  unfold PostCallHandler, PostCallHandler_on, io.ReadAll.
  cbv zeta. rewrite Hdev, Hsvc, Hread1, Hread2, Hjson. reflexivity.
Qed.

(** ** The id of a JSON-RPC message, continued *)

Lemma injectID_keeps (m : gmap string json.any) (v s id : string) :
  m !! "jsonrpc" = Some (json.AString v) ->
  m !! "id" = Some (json.AString s) ->
  s <> "" ->
  injectID (Some m) id = Some (Some m).
Proof.
  intros Hrpc Hid Hs. unfold injectID, json.index. cbn.
  rewrite Hrpc, Hid. cbn. apply String.eqb_neq in Hs. rewrite Hs. reflexivity.
Qed.

(** X5. A JSON-RPC object that brings a non-empty string as [id] is
    serialised as it was decoded; the generated identifier is still the
    [TransactionUUID] of the envelope. *)
Theorem string_id_is_kept (ext : Extern) (u : DeviceServer)
    (id : string) (r : http.Request) (W : Type) `{!http.ResponseWriter W}
    (w : W) (m : gmap string json.any) (v s : string) :
  let st := exec (PostCallHandler ext u id W _ r) (start w) in
  hex12 (http.Vars r !!! "deviceID") = true ->
  io.failure (io.LimitReader (http.Body r) MaxBodySize) = None ->
  json.Unmarshal (truncated r) = inr (Some m) ->
  m !! "jsonrpc" = Some (json.AString v) ->
  m !! "id" = Some (json.AString s) ->
  s <> "" ->
  marshalled (trace st) = [Some m]
  /\ uuids (trace st) = [id]
  /\ (forall msg, msg ∈ envelopes (trace st) ->
        wrp.TransactionUUID msg = id
        /\ json_Marshal ext (Some m) = inr (wrp.Payload msg)).
Proof.
  intros st Hdev Hread Hjson Hrpc Hid Hs. subst st.
  rewrite (past_parsing ext u id r W w _ Hdev Hread Hjson).
  rewrite (injectID_keeps m v s id Hrpc Hid Hs).
  destruct (forward_envelope ext u (http.Vars r !!! "deviceID")
              (http.Vars r !!! "service") id (Some m) W w)
    as (Hu & Hm & He).
  rewrite Hu, Hm, He. split; [reflexivity|]. split; [reflexivity|].
  intros msg Hin.
  destruct (json_Marshal ext (Some m));
    [apply elem_of_nil in Hin; contradiction|].
  apply list_elem_of_singleton in Hin. subst msg. split; reflexivity.
Qed.

Lemma injectID_cases (m : gmap string json.any) (id : string) :
  injectID (Some m) id = Some (Some m)
  \/ injectID (Some m) id = Some (Some (<["id" := json.AString id]> m)).
Proof.
  unfold injectID, json.index, json.assign. cbn.
  destruct (snd (json.assert_string _)); [|left; reflexivity].
  destruct (json.assert_string _) as [s ok].
  destruct (negb ok || (s =? "")); [right | left]; reflexivity.
Qed.

(** X6. Whatever object the body decodes to, the object serialised is
    that object or that object with [id] set to the generated identifier:
    every other member is as it was decoded. *)
Theorem only_id_is_set (ext : Extern) (u : DeviceServer)
    (id : string) (r : http.Request) (W : Type) `{!http.ResponseWriter W}
    (w : W) (m : gmap string json.any) :
  let st := exec (PostCallHandler ext u id W _ r) (start w) in
  hex12 (http.Vars r !!! "deviceID") = true ->
  io.failure (io.LimitReader (http.Body r) MaxBodySize) = None ->
  json.Unmarshal (truncated r) = inr (Some m) ->
  exists m',
    marshalled (trace st) = [Some m']
    /\ (m' = m \/ m' = <["id" := json.AString id]> m)
    /\ (forall k, k <> "id" -> m' !! k = m !! k)
    /\ (forall x, m' !! "id" = Some x ->
          m !! "id" = Some x \/ x = json.AString id).
Proof.
  intros st Hdev Hread Hjson. subst st.
  rewrite (past_parsing ext u id r W w _ Hdev Hread Hjson).
  destruct (injectID_cases m id) as [-> | ->].
  - exists m. split; [apply forward_envelope|]. split; [left; reflexivity|].
    split; [reflexivity|]. intros x Hx. left. exact Hx.
  - eexists. split; [apply forward_envelope|]. split; [right; reflexivity|].
    split.
    + intros k Hk. apply lookup_insert_ne. congruence.
    + intros x Hx. rewrite lookup_insert_eq in Hx. injection Hx as <-.
      right. reflexivity.
Qed.


(** X8. The body [null] is taken: it decodes to a nil map, which is
    serialised as it is under a fresh identifier; every envelope built
    carries that serialisation and that identifier. *)
Theorem null_body_is_forwarded (ext : Extern) (u : DeviceServer) (id : string)
    (r : http.Request) (W : Type) `{!http.ResponseWriter W} (w : W) :
  let st := exec (PostCallHandler ext u id W _ r) (start w) in
  hex12 (http.Vars r !!! "deviceID") = true ->
  io.failure (io.LimitReader (http.Body r) MaxBodySize) = None ->
  json.parse (truncated r) = Some json.Null ->
  uuids (trace st) = [id]
  /\ marshalled (trace st) = [None]
  /\ (forall msg, msg ∈ envelopes (trace st) ->
        wrp.TransactionUUID msg = id
        /\ json_Marshal ext None = inr (wrp.Payload msg)).
Proof.
  intros st Hdev Hread Hparse. subst st.
  destruct (null_body_proceeds ext u id r W w Hdev Hread Hparse) as [Hu Hm].
  split; [exact Hu|]. split; [exact Hm|].
  assert (Hjson : json.Unmarshal (truncated r) = inr None)
    by (unfold json.Unmarshal; rewrite Hparse; reflexivity).
  rewrite (past_parsing ext u id r W w _ Hdev Hread Hjson).
  change (injectID None id) with (Some (@None (gmap string json.any))).
  destruct (forward_envelope ext u (http.Vars r !!! "deviceID")
              (http.Vars r !!! "service") id None W w) as (_ & _ & He).
  rewrite He. intros msg Hin.
  destruct (json_Marshal ext None);
    [apply elem_of_nil in Hin; contradiction|].
  apply list_elem_of_singleton in Hin. subst msg. split; reflexivity.
Qed.

(** ** Failures on the way to the backend *)

(** X9. When the serialiser rejects the object, the request is answered
    500; no envelope is built and nothing is posted. *)
Theorem marshal_failure_is_500 (ext : Extern) (u : DeviceServer) (id : string)
    (r : http.Request) (W : Type) `{!http.ResponseWriter W} (w : W)
    (dr : RpcRequest) (err : error) :
  let st := exec (PostCallHandler ext u id W _ r) (start w) in
  dr ∈ marshalled (trace st) ->
  json_Marshal ext dr = inl err ->
  rw st = http.Error "Failed to marshal JSON" http.StatusInternalServerError w
  /\ trace st
     = [EvUUID id; EvMarshal dr;
        EvLog (zap.entry
                 (zap.With (log u)
                    [zap.String_ "device_id" (http.Vars r !!! "deviceID");
                     zap.String_ "request_id" id])
                 zap.ErrorLevel "Failed to marshal JSON" [zap.Error err])]
  /\ envelopes (trace st) = []
  /\ backend_calls (trace st) = [].
Proof.
  intros st Hin Herr. subst st. revert Hin. run_cases; intros Hin;
    try (no_such Hin); the_one Hin; try congruence.
  rewrite Herr in *.
  match goal with H : inl _ = inl _ |- _ => injection H as <- end.
  repeat split.
Qed.

(** X10. When the WRP encoder rejects the envelope, the request is
    answered 500 and nothing is posted. *)
Theorem encode_failure_is_500 (ext : Extern) (u : DeviceServer) (id : string)
    (r : http.Request) (W : Type) `{!http.ResponseWriter W} (w : W)
    (msg : wrp.Message) (err : error) :
  let st := exec (PostCallHandler ext u id W _ r) (start w) in
  msg ∈ envelopes (trace st) ->
  wrp_Encode ext msg = inl err ->
  rw st = http.Error "Failed to encode WRP Msgpack"
            http.StatusInternalServerError w
  /\ logged (trace st)
     = [zap.entry
          (zap.With (log u)
             [zap.String_ "device_id" (http.Vars r !!! "deviceID");
              zap.String_ "request_id" id])
          zap.ErrorLevel "Failed to encode WRP Msgpack" [zap.Error err]]
  /\ backend_calls (trace st) = [].
Proof.
  intros st Hin Herr. subst st. revert Hin. run_cases; intros Hin;
    try (no_such Hin); the_one Hin; try congruence.
  rewrite Herr in *.
  match goal with H : inl _ = inl _ |- _ => injection H as <- end.
  repeat split.
Qed.

(** X11. [NewDeviceServer] never fails and checks nothing: a URL that
    does not parse is found only when a request has been encoded, and that
    request is answered 503 without a post. *)
Theorem bad_backend_url_is_503
    (Client_Do : http.Client -> http.ClientRequest -> error + http.Response)
    (logger : zap.Logger) (url auth : string)
    (ext : Extern) (id : string)
    (r : http.Request) (W : Type) `{!http.ResponseWriter W} (w : W)
    (e : error) (msg : wrp.Message) (b : bytes) :
  let made := NewDeviceServer Client_Do logger url auth in
  let st := exec (PostCallHandler ext (fst made) id W _ r) (start w) in
  url_Parse ext url = Some e ->
  msg ∈ envelopes (trace st) ->
  wrp_Encode ext msg = inr b ->
  snd made = None
  /\ rw st = http.Error "Failed to post to Scytale"
               http.StatusServiceUnavailable w
  /\ backend_calls (trace st) = [].
Proof.
  intros made st Hurl Hin Henc. subst st made.
  split; [reflexivity|]. revert Hin.
  cbn [fst NewDeviceServer]. run_cases; cbn [scytaleUrl] in *; intros Hin;
    try (no_such Hin); the_one Hin; try congruence.
  split; reflexivity.
Qed.

(** X12. When the post to the backend fails, the request is answered
    503; the post was the only one and no reply is decoded. *)
Theorem transport_failure_is_503 (ext : Extern) (u : DeviceServer)
    (id : string) (r : http.Request) (W : Type) `{!http.ResponseWriter W}
    (w : W) (req : http.ClientRequest) (err : error) :
  let st := exec (PostCallHandler ext u id W _ r) (start w) in
  req ∈ backend_calls (trace st) ->
  client u req = inl err ->
  rw st = http.Error "Failed to post to Scytale"
            http.StatusServiceUnavailable w
  /\ backend_calls (trace st) = [req]
  /\ decodes (trace st) = [].
Proof.
  intros st Hin Herr. subst st. revert Hin. run_cases; intros Hin;
    try (no_such Hin); the_one Hin; try congruence.
  repeat split.
Qed.

(** ** What is sent *)

(** X13. Every request posted to the backend is a POST to the configured
    URL whose headers are the Msgpack content type, the Msgpack accept type
    and the Basic credential, and whose body is the encoding of the one
    envelope built; no request is posted twice. *)
Theorem outbound_request_shape (ext : Extern) (u : DeviceServer) (id : string)
    (r : http.Request) (W : Type) `{!http.ResponseWriter W} (w : W)
    (req : http.ClientRequest) :
  let st := exec (PostCallHandler ext u id W _ r) (start w) in
  req ∈ backend_calls (trace st) ->
  http.req_method req = "POST"
  /\ http.req_url req = scytaleUrl u
  /\ http.req_header req
     = <["Authorization" := ["Basic " ++ scytaleAuth u]]>
         (<["Accept" := ["application/msgpack"]]>
            (<["Content-Type" := ["application/msgpack"]]> ∅))
  /\ (exists msg, envelopes (trace st) = [msg]
                  /\ wrp_Encode ext msg = inr (http.req_body req))
  /\ backend_calls (trace st) = [req].
Proof.
  intros st Hin. subst st. revert Hin. run_cases; intros Hin;
    try (no_such Hin); the_one Hin;
    (split; [reflexivity|]); (split; [reflexivity|]);
    (split; [reflexivity|]); (split; [|reflexivity]);
    eexists; (split; [reflexivity|]); assumption.
Qed.

(** X14. Every envelope built is a simple request-response message from
    [scytale2parodus] to [mac:<deviceID>/<service>] of content type
    application/json under the generated identifier; its device id has
    passed the check, and its payload is the serialisation of the one
    object serialised. *)
Theorem envelope_shape (ext : Extern) (u : DeviceServer) (id : string)
    (r : http.Request) (W : Type) `{!http.ResponseWriter W} (w : W)
    (msg : wrp.Message) :
  let st := exec (PostCallHandler ext u id W _ r) (start w) in
  let deviceID := http.Vars r !!! "deviceID" in
  let service := http.Vars r !!! "service" in
  msg ∈ envelopes (trace st) ->
  msg = {| wrp.Type_ := wrp.SimpleRequestResponseMessageType;
           wrp.Source := "scytale2parodus";
           wrp.Destination := "mac:" ++ deviceID ++ "/" ++ service;
           wrp.ContentType := "application/json";
           wrp.TransactionUUID := id;
           wrp.Payload := wrp.Payload msg |}
  /\ hex12 deviceID = true
  /\ (exists dr, marshalled (trace st) = [dr]
                 /\ json_Marshal ext dr = inr (wrp.Payload msg))
  /\ envelopes (trace st) = [msg].
Proof.
  intros st deviceID service Hin. subst st deviceID service. revert Hin.
  unfold_run. rewrite deviceIdRegex_spec.
  repeat (case_inner; cbn [rw trace fst snd app] in * ); intros Hin;
    try (no_such Hin); the_one Hin;
    (split; [reflexivity|]);
    (split; [apply negb_false_iff; assumption|]);
    (split; [|reflexivity]);
    eexists; (split; [reflexivity|]); assumption.
Qed.


(** X16. Every log entry of a request names the device id, and from
    the generation of the identifier on the request id as well. *)
Theorem every_log_names_the_device (ext : Extern) (u : DeviceServer)
    (id : string) (r : http.Request) (W : Type) `{!http.ResponseWriter W}
    (w : W) :
  let st := exec (PostCallHandler ext u id W _ r) (start w) in
  let deviceID := http.Vars r !!! "deviceID" in
  Forall (fun e =>
            zap.String_ "device_id" deviceID ∈ zap.fields e
            /\ (uuids (trace st) = [id] ->
                zap.String_ "request_id" id ∈ zap.fields e))
    (logged (trace st)).
Proof.
  intros st deviceID. subst st deviceID. run_cases; cbn;
    repeat constructor; try discriminate;
    cbn; rewrite ?elem_of_app, ?elem_of_cons; tauto.
Qed.

(** ** What the client gets *)

Lemma refused_code (code : Z) :
  (code <? 200)%Z || (400 <=? code)%Z = true -> ~ accepted code.
Proof. unfold accepted. intros H. apply orb_true_iff in H. lia. Qed.

Lemma accepted_code (code : Z) :
  (code <? 200)%Z || (400 <=? code)%Z = false -> accepted code.
Proof. unfold accepted. intros H. apply orb_false_iff in H. lia. Qed.





(** X18. A response with status 200 always carries a backend payload:
    one request was posted, the backend answered it with a status in
    [200,400) and a message that decoded, and the body is that message's
    payload, which is not empty. *)
Theorem ok_only_with_payload (ext : Extern) (u : DeviceServer) (id : string)
    (r : http.Request) :
  let st := exec (PostCallHandler ext u id http.response _ r)
              (start http.fresh) in
  http.status (rw st) = Some 200%Z ->
  exists req resp reply,
    backend_calls (trace st) = [req]
    /\ client u req = inr resp
    /\ accepted (http.StatusCode resp)
    /\ wrp_Decode ext (http.RespBody resp) = inr reply
    /\ wrp.Payload reply <> ""
    /\ http.body (rw st) = wrp.Payload reply
    /\ http.sent_header (rw st) "Content-Type" = Some ["application/json"].
Proof.
  intros st. subst st. run_cases; intros Hok.
  all: try nil_map_impossible.
  all: try (rewrite status_of_Error in Hok; discriminate).
  - rewrite status_of_Error in Hok. injection Hok as Hok.
    match goal with
    | H : _ || _ = true |- _ =>
        apply refused_code in H; unfold accepted in H; lia
    end.
  - eexists _, _, _. split; [reflexivity|]. split; [eassumption|].
    split; [apply accepted_code; assumption|]. split; [eassumption|].
    split; [apply String.eqb_neq; assumption|]. split; reflexivity.
Qed.

(** ** The status-capturing writer *)

Lemma last_cons_default (c0 code : Z) (l : list Z) :
  default c0 (last (code :: l)) = default code (last l).
Proof.
  destruct l as [|z l]; [reflexivity|].
  change (last (code :: z :: l)) with (last (z :: l)).
  assert (H : exists y, last (z :: l) = Some y).
  { revert z. induction l as [|z' l IH]; intros z; [eexists; reflexivity|].
    apply (IH z'). }
  destruct H as [y ->]. reflexivity.
Qed.

(** X19. Whatever a handler calls on a [responseWriter] reaches the
    writer inside unchanged, and the wrapper holds the code of the last
    [WriteHeader], or its initial one when there was none -- as long as no
    code is 0. *)
Theorem responseWriter_forwards (W : Type) `{!http.ResponseWriter W}
    (cs : list WriterCall) (w : W) (c0 : Z) :
  c0 <> 0%Z ->
  Forall (fun code => code <> 0%Z) (header_codes cs) ->
  let out := calls cs {| ResponseWriter := w; statusCode := c0 |} in
  ResponseWriter out = calls cs w
  /\ statusCode out = default c0 (last (header_codes cs)).
Proof.
  revert w c0. induction cs as [|c cs IH]; intros w c0 Hc0 Hcs out; subst out.
  - split; reflexivity.
  - change (calls (c :: cs) ?x) with (calls cs (call c x)).
    destruct c as [k v | k | b | code].
    + apply (IH _ _ Hc0 Hcs).
    + apply (IH _ _ Hc0 Hcs).
    + change (header_codes (CallWrite b :: cs)) with (header_codes cs) in *.
      cbn [call http.Write responseWriter_writer]. unfold responseWriter_Write.
      cbn [statusCode ResponseWriter].
      destruct (c0 =? 0)%Z eqn:E; [apply Z.eqb_eq in E; contradiction|].
      apply (IH _ _ Hc0 Hcs).
    + change (header_codes (CallWriteHeader code :: cs))
        with (code :: header_codes cs) in *.
      apply Forall_cons in Hcs as [Hcode Hcs].
      rewrite last_cons_default.
      apply (IH _ _ Hcode Hcs).
Qed.

(** ** The route, continued *)






(** ** Host and port *)

Section Strings.

Lemma append_cons (c : ascii) (a b : string) :
  String c a ++ b = String c (a ++ b).
Proof. reflexivity. Qed.

Lemma append_nil (b : string) : "" ++ b = b.
Proof. reflexivity. Qed.

Lemma append_assoc (a b c : string) : (a ++ b) ++ c = a ++ b ++ c.
Proof.
  induction a as [|x a IH]; [reflexivity|].
  rewrite !append_cons, IH. reflexivity.
Qed.

Lemma length_append (a b : string) :
  String.length (a ++ b) = (String.length a + String.length b)%nat.
Proof.
  induction a as [|c a IH]; [reflexivity|].
  rewrite append_cons. cbn. rewrite IH. reflexivity.
Qed.

Lemma substring_whole (s : string) :
  String.substring 0 (String.length s) s = s.
Proof.
  induction s as [|c s IH]; cbn; [reflexivity | rewrite IH; reflexivity].
Qed.

Lemma substring_app_left (a b : string) :
  String.substring 0 (String.length a) (a ++ b) = a.
Proof.
  induction a as [|c a IH].
  - rewrite append_nil. destruct b; reflexivity.
  - rewrite append_cons. cbn. rewrite IH. reflexivity.
Qed.

Lemma substring_app_right (a b : string) (n m : nat) :
  String.substring (String.length a + n) m (a ++ b) = String.substring n m b.
Proof.
  induction a as [|c a IH]; [reflexivity|].
  rewrite append_cons. cbn. exact IH.
Qed.

Lemma slice_from_app (a b : string) (n : nat) :
  n = String.length a -> net.slice_from (a ++ b) n = b.
Proof.
  intros ->. unfold net.slice_from. rewrite length_append.
  replace (String.length a + String.length b - String.length a)%nat
    with (String.length b) by lia.
  rewrite <- (Nat.add_0_r (String.length a)) at 1.
  rewrite substring_app_right. apply substring_whole.
Qed.

Lemma slice_from_0 (s : string) : net.slice_from s 0 = s.
Proof. unfold net.slice_from. rewrite Nat.sub_0_r. apply substring_whole. Qed.

Lemma slice_0 (s : string) (i : nat) :
  net.slice s 0 i = String.substring 0 i s.
Proof. unfold net.slice. rewrite Nat.sub_0_r. reflexivity. Qed.

Lemma slice_app_middle (a b c : string) (i j : nat) :
  i = String.length a -> j = (String.length a + String.length b)%nat ->
  net.slice (a ++ b ++ c) i j = b.
Proof.
  intros -> ->. unfold net.slice.
  replace (String.length a + String.length b - String.length a)%nat
    with (String.length b) by lia.
  rewrite <- (Nat.add_0_r (String.length a)) at 1.
  rewrite substring_app_right. apply substring_app_left.
Qed.

Lemma slice_app_left (a b : string) (j : nat) :
  j = String.length a -> net.slice (a ++ b) 0 j = a.
Proof. intros ->. rewrite slice_0. apply substring_app_left. Qed.

Lemma Index_app (a b : string) (c : ascii) :
  net.IndexByteString (a ++ b) c
  = match net.IndexByteString a c with
    | Some i => Some i
    | None => (fun i => String.length a + i)%nat <$> net.IndexByteString b c
    end.
Proof.
  induction a as [|x a IH].
  - rewrite append_nil. cbn. destruct (net.IndexByteString b c); reflexivity.
  - rewrite append_cons. cbn.
    destruct (x =? c)%char; [reflexivity|]. rewrite IH.
    destruct (net.IndexByteString a c); [reflexivity|].
    destruct (net.IndexByteString b c); reflexivity.
Qed.

Lemma LastIndex_app (a b : string) (c : ascii) :
  net.LastIndexByteString (a ++ b) c
  = match net.LastIndexByteString b c with
    | Some i => Some (String.length a + i)%nat
    | None => net.LastIndexByteString a c
    end.
Proof.
  induction a as [|x a IH].
  - rewrite append_nil. cbn.
    destruct (net.LastIndexByteString b c); reflexivity.
  - rewrite append_cons. cbn.
    rewrite IH. destruct (net.LastIndexByteString b c); reflexivity.
Qed.

Lemma LastIndex_none (s : string) (c : ascii) :
  net.IndexByteString s c = None -> net.LastIndexByteString s c = None.
Proof.
  induction s as [|x s IH]; cbn; [reflexivity|].
  destruct (x =? c)%char; [discriminate|].
  destruct (net.IndexByteString s c); [discriminate|].
  intros _. rewrite IH by reflexivity. reflexivity.
Qed.

(** A string is cut in three at the last, or the first, occurrence of a
    byte. *)
Lemma LastIndex_split (s : string) (c : ascii) : forall i,
  net.LastIndexByteString s c = Some i ->
  s = String.substring 0 i s ++ String c (net.slice_from s (S i)).
Proof.
  unfold net.slice_from.
  induction s as [|x s IH]; intros i; cbn; [discriminate|].
  destruct (net.LastIndexByteString s c) as [j|] eqn:E.
  - intros [= <-]. cbn. rewrite append_cons. f_equal.
    apply (IH j eq_refl).
  - destruct (x =? c)%char eqn:Ex; [|discriminate]. intros [= <-].
    apply Ascii.eqb_eq in Ex. subst x. cbn. rewrite append_nil. f_equal.
    rewrite Nat.sub_0_r. symmetry. apply substring_whole.
Qed.

Lemma Index_split (s : string) (c : ascii) : forall i,
  net.IndexByteString s c = Some i ->
  s = String.substring 0 i s ++ String c (net.slice_from s (S i)).
Proof.
  unfold net.slice_from.
  induction s as [|x s IH]; intros i; cbn; [discriminate|].
  destruct (x =? c)%char eqn:Ex.
  - intros [= <-]. apply Ascii.eqb_eq in Ex. subst x. cbn.
    rewrite append_nil, Nat.sub_0_r, substring_whole. reflexivity.
  - destruct (net.IndexByteString s c) as [j|] eqn:E; [|discriminate].
    cbn. intros [= <-]. cbn. rewrite append_cons. f_equal.
    apply (IH j eq_refl).
Qed.

Lemma LastIndex_get (s : string) (c : ascii) : forall i,
  net.LastIndexByteString s c = Some i -> String.get i s = Some c.
Proof.
  induction s as [|x s IH]; intros i; cbn; [discriminate|].
  destruct (net.LastIndexByteString s c) as [j|] eqn:E.
  - intros [= <-]. apply (IH j eq_refl).
  - destruct (x =? c)%char eqn:Ex; [|discriminate]. intros [= <-].
    apply Ascii.eqb_eq in Ex. subst x. reflexivity.
Qed.

Lemma slice_from_get (s : string) (c : ascii) : forall i,
  String.get i s = Some c ->
  net.slice_from s i = String c (net.slice_from s (S i)).
Proof.
  unfold net.slice_from.
  induction s as [|x s IH]; intros i; [destruct i; discriminate|].
  destruct i as [|i]; cbn.
  - intros [= ->]. rewrite Nat.sub_0_r, !substring_whole. reflexivity.
  - intros H. apply (IH i H).
Qed.

End Strings.

(** X24. Joining a host and a port and splitting the result gives them
    back, when the host holds no bracket and the port neither bracket nor
    colon; a host with colons in it goes through brackets. *)
Theorem split_of_join (host port : string) :
  net.IndexByteString host "[" = None ->
  net.IndexByteString host "]" = None ->
  net.IndexByteString port ":" = None ->
  net.IndexByteString port "[" = None ->
  net.IndexByteString port "]" = None ->
  net.SplitHostPort (net.JoinHostPort host port) = inr (host, port).
Proof.
  intros Hlb Hrb Pc Plb Prb.
  unfold net.JoinHostPort.
  destruct (net.IndexByteString host ":") as [n|] eqn:Hc.
  - (* a host with a colon: brackets *)
    set (hp := "[" ++ host ++ "]:" ++ port).
    assert (Hlast : net.LastIndexByteString hp ":"
                    = Some (String.length host + 2)%nat).
    { unfold hp. rewrite !LastIndex_app.
      rewrite (LastIndex_none port ":" Pc). cbn. f_equal. lia. }
    assert (Hend : net.IndexByteString hp "]" = Some (S (String.length host))).
    { unfold hp. rewrite !Index_app, Hrb. cbn. f_equal. lia. }
    assert (Hlen : String.length hp
                   = (String.length host + 3 + String.length port)%nat).
    { unfold hp. rewrite !length_append. cbn. lia. }
    assert (H1 : net.slice_from hp 1 = host ++ "]:" ++ port).
    { unfold hp. apply slice_from_app. reflexivity. }
    assert (H2 : net.slice_from hp (S (String.length host) + 1) = ":" ++ port).
    { unfold hp.
      change ("[" ++ host ++ "]:" ++ port)
        with ("[" ++ host ++ "]" ++ ":" ++ port).
      rewrite <- (append_assoc host "]"), <- (append_assoc "[").
      apply slice_from_app. rewrite !length_append. cbn. lia. }
    assert (H3 : net.slice_from hp (String.length host + 2 + 1) = port).
    { unfold hp.
      rewrite <- (append_assoc host "]:"), <- (append_assoc "[").
      apply slice_from_app. rewrite !length_append. cbn. lia. }
    assert (H4 : net.slice hp 1 (S (String.length host)) = host).
    { unfold hp. apply slice_app_middle; cbn; lia. }
    unfold net.SplitHostPort. rewrite Hlast.
    change (String.get 0 hp) with (Some "["%char). cbv iota.
    rewrite Hend, Hlen.
    replace (S (String.length host) + 1
             =? String.length host + 3 + String.length port)%nat
      with false by (symmetry; apply Nat.eqb_neq; lia).
    replace (S (String.length host) + 1 =? String.length host + 2)%nat
      with true by (symmetry; apply Nat.eqb_eq; lia).
    rewrite H1, H2, H3, H4.
    rewrite !Index_app, Hlb, Plb. cbn.
    rewrite Prb. reflexivity.
  - (* a host without colon *)
    set (hp := host ++ ":" ++ port).
    assert (Hlast : net.LastIndexByteString hp ":"
                    = Some (String.length host)).
    { unfold hp. rewrite !LastIndex_app.
      rewrite (LastIndex_none port ":" Pc). cbn. f_equal. lia. }
    assert (H0 : String.get 0 hp <> Some "["%char).
    { unfold hp. destruct host as [|c host]; [discriminate|].
      rewrite append_cons. cbn. intros [= ->]. cbn in Hlb. discriminate. }
    assert (H1 : net.slice hp 0 (String.length host) = host).
    { unfold hp. apply slice_app_left. reflexivity. }
    assert (H3 : net.slice_from hp (String.length host + 1) = port).
    { unfold hp. rewrite <- (append_assoc host ":").
      apply slice_from_app. rewrite length_append. reflexivity. }
    assert (Hb1 : net.IndexByteString hp "[" = None).
    { unfold hp. rewrite !Index_app, Hlb, Plb. reflexivity. }
    assert (Hb2 : net.IndexByteString hp "]" = None).
    { unfold hp. rewrite !Index_app, Hrb, Prb. reflexivity. }
    unfold net.SplitHostPort. rewrite Hlast, H1, Hc, slice_from_0, H3.
    rewrite Hb1, Hb2.
    destruct (String.get 0 hp) as [c|]; [|reflexivity].
    assert (Hc0 : c <> "["%char) by congruence.
    destruct c as [[] [] [] [] [] [] [] []]; try reflexivity.
    contradiction.
Qed.

(** What [SplitHostPort] returns for an address that does not open with
    a bracket: the parts before and after its only colon. *)
Lemma SplitHostPort_plain (hostport host port : string) :
  String.get 0 hostport <> Some "["%char ->
  net.SplitHostPort hostport = inr (host, port) ->
  hostport = host ++ ":" ++ port
  /\ net.JoinHostPort host port = hostport.
Proof.
  intros H0. unfold net.SplitHostPort.
  destruct (net.LastIndexByteString hostport ":") as [i|] eqn:Hlast;
    [|discriminate].
  assert (Hbranch :
    match net.IndexByteString (net.slice hostport 0 i) ":" with
    | Some _ => inl {| net.Err := net.tooManyColons; net.Addr := hostport |}
    | None =>
        match net.IndexByteString (net.slice_from hostport 0) "[" with
        | Some _ => inl {| net.Err := "unexpected '[' in address";
                           net.Addr := hostport |}
        | None =>
            match net.IndexByteString (net.slice_from hostport 0) "]" with
            | Some _ => inl {| net.Err := "unexpected ']' in address";
                               net.Addr := hostport |}
            | None => inr (net.slice hostport 0 i,
                           net.slice_from hostport (i + 1))
            end
        end
    end = inr (host, port) ->
    hostport = host ++ ":" ++ port
    /\ net.JoinHostPort host port = hostport).
  { destruct (net.IndexByteString (net.slice hostport 0 i) ":") eqn:Hcol;
      [discriminate|].
    destruct (net.IndexByteString (net.slice_from hostport 0) "[");
      [discriminate|].
    destruct (net.IndexByteString (net.slice_from hostport 0) "]");
      [discriminate|].
    intros [= <- <-].
    assert (Hwhole : hostport
                     = net.slice hostport 0 i ++ ":"
                         ++ net.slice_from hostport (i + 1)).
    { rewrite slice_0, Nat.add_1_r. apply LastIndex_split. exact Hlast. }
    split; [exact Hwhole|].
    unfold net.JoinHostPort. rewrite Hcol. symmetry. exact Hwhole. }
  destruct (String.get 0 hostport) as [c|]; [|exact Hbranch].
  assert (Hc : c <> "["%char) by congruence.
  destruct c as [[] [] [] [] [] [] [] []]; try exact Hbranch.
  contradiction.
Qed.

(** X25. An address that [SplitHostPort] takes is the host, a colon and
    the port, the host in brackets or not; joining the parts gives the
    address back, except that brackets around a host without colon are
    dropped. *)
Theorem join_of_split (hostport host port : string) :
  net.SplitHostPort hostport = inr (host, port) ->
  (hostport = host ++ ":" ++ port
   /\ net.JoinHostPort host port = hostport)
  \/ (hostport = "[" ++ host ++ "]:" ++ port
      /\ net.JoinHostPort host port
         = match net.IndexByteString host ":" with
           | Some _ => hostport
           | None => host ++ ":" ++ port
           end).
Proof.
  destruct (String.get 0 hostport) as [c|] eqn:H0.
  2:{ intros Hsplit. left. apply SplitHostPort_plain; [|exact Hsplit].
      rewrite H0. discriminate. }
  destruct (Ascii.eqb_spec c "[") as [-> | Hc].
  2:{ intros Hsplit. left. apply SplitHostPort_plain; [|exact Hsplit].
      rewrite H0. congruence. }
  unfold net.SplitHostPort. rewrite H0.
  destruct (net.LastIndexByteString hostport ":") as [i|] eqn:Hlast;
    [|discriminate].
  destruct (net.IndexByteString hostport "]") as [e|] eqn:Hend;
    [|discriminate].
  destruct (e + 1 =? String.length hostport)%nat; [discriminate|].
  destruct (e + 1 =? i)%nat eqn:Hi.
  2:{ destruct (String.get (e + 1) hostport) as [c|]; [|discriminate].
      destruct c as [[] [] [] [] [] [] [] []]; discriminate. }
  apply Nat.eqb_eq in Hi. subst i.
  destruct (net.IndexByteString (net.slice_from hostport 1) "[");
    [discriminate|].
  destruct (net.IndexByteString (net.slice_from hostport (e + 1)) "]");
    [discriminate|].
  intros [= <- <-]. right.
  destruct hostport as [|x hp]; [discriminate|].
  cbn in H0. injection H0 as ->.
  cbn in Hend.
  destruct (net.IndexByteString hp "]") as [e'|] eqn:Hend'; [|discriminate].
  cbn in Hend. injection Hend as <-.
  assert (Hget : String.get (S e') hp = Some ":"%char).
  { apply LastIndex_get in Hlast.
    replace (S e' + 1)%nat with (S (S e')) in Hlast by lia.
    exact Hlast. }
  assert (Hh : net.slice (String "[" hp) 1 (S e') = String.substring 0 e' hp).
  { unfold net.slice. cbn. rewrite Nat.sub_0_r. reflexivity. }
  assert (Hp : net.slice_from (String "[" hp) (S e' + 1 + 1)
               = net.slice_from hp (S (S e'))).
  { unfold net.slice_from.
    replace (S e' + 1 + 1)%nat with (S (S (S e'))) by lia. reflexivity. }
  rewrite Hh, Hp.
  assert (Hwhole : String "[" hp
                   = "[" ++ String.substring 0 e' hp ++ "]:"
                         ++ net.slice_from hp (S (S e'))).
  { rewrite (Index_split hp "]" e' Hend') at 1.
    rewrite (slice_from_get hp ":" (S e') Hget). reflexivity. }
  split; [exact Hwhole|].
  unfold net.JoinHostPort.
  destruct (net.IndexByteString (String.substring 0 e' hp) ":");
    [symmetry; exact Hwhole | reflexivity].
Qed.

(** ** The health probe *)

Ltac unfold_health :=
  unfold HealthCheckHandler, logger_Error, http_Error, exec, bind, emit,
    on_writer, start;
  cbn [rw trace fst snd app].

(** X26. The health probe answers 200, 500 or 503: 200 exactly when the
    URL parses, its host splits into host and port and the dial to them
    succeeds, and then the body is the healthy status as JSON and nothing
    is logged; 503 exactly when only the dial fails; every other answer is
    plain text with one log entry at error level.  Nothing is ever posted
    to the backend. *)
Theorem health_outcomes (nw : Network) (u : DeviceServer) (r : http.Request) :
  let st := exec (HealthCheckHandler nw u http.response _ r)
              (start http.fresh) in
  let dialed (answer : option error) :=
    exists parsed host port,
      net_url_Parse nw (scytaleUrl u) = inr parsed
      /\ net.SplitHostPort (url.Host parsed) = inr (host, port)
      /\ net_DialTimeout nw "tcp" (net.JoinHostPort host port)
           (2 * time.Second) = answer in
  (http.status (rw st) = Some 200%Z
   \/ http.status (rw st) = Some 500%Z
   \/ http.status (rw st) = Some 503%Z)
  /\ (http.status (rw st) = Some 200%Z <-> dialed None)
  /\ (http.status (rw st) = Some 503%Z <-> exists err, dialed (Some err))
  /\ (http.status (rw st) = Some 200%Z ->
        http.body (rw st) = healthy
        /\ http.sent_header (rw st) "Content-Type" = Some ["application/json"]
        /\ trace st = [])
  /\ (forall code, http.status (rw st) = Some code -> code <> 200%Z ->
        http.sent_header (rw st) "Content-Type"
        = Some ["text/plain; charset=utf-8"]
        /\ exists e, trace st = [EvLog e] /\ zap.level e = zap.ErrorLevel)
  /\ backend_calls (trace st) = [].
Proof.
  intros st dialed. subst st dialed. unfold_health.
  destruct (net_url_Parse nw (scytaleUrl u)) as [e | parsed] eqn:Hparse.
  { cbn [rw trace fst snd].
    split; [right; left; reflexivity|].
    split; [split; [discriminate | intros (? & ? & ? & [=] & _)]|].
    split; [split; [discriminate | intros (? & ? & ? & ? & [=] & _)]|].
    split; [discriminate|]. split; [|reflexivity].
    intros code _ _. split; [reflexivity|]. eexists. split; reflexivity. }
  destruct (net.SplitHostPort (url.Host parsed)) as [e | [host port]] eqn:Hsplit.
  { cbn [rw trace fst snd].
    split; [right; left; reflexivity|].
    split; [split; [discriminate
                   | intros (? & ? & ? & [= <-] & Hs & _); congruence]|].
    split; [split; [discriminate
                   | intros (? & ? & ? & ? & [= <-] & Hs & _); congruence]|].
    split; [discriminate|]. split; [|reflexivity].
    intros code _ _. split; [reflexivity|]. eexists. split; reflexivity. }
  destruct (net_DialTimeout nw "tcp" (net.JoinHostPort host port)
              (2 * time.Second)) as [e|] eqn:Hdial.
  { cbn [rw trace fst snd].
    split; [right; right; reflexivity|].
    split; [split; [discriminate
                   | intros (? & ? & ? & [= <-] & Hs & Hd); congruence]|].
    split; [split; [intros _; eauto 10 | reflexivity]|].
    split; [discriminate|]. split; [|reflexivity].
    intros code _ _. split; [reflexivity|]. eexists. split; reflexivity. }
  cbn [rw trace fst snd].
  split; [left; reflexivity|].
  split; [split; [intros _; eauto 10 | reflexivity]|].
  split; [split; [discriminate
                 | intros (? & ? & ? & ? & [= <-] & Hs & Hd); congruence]|].
  split; [intros _; repeat split|]. split; [|reflexivity].
  intros code [= <-] Hne. contradiction.
Qed.

Lemma SplitHostPort_no_colon (hostport : string) :
  net.IndexByteString hostport ":" = None ->
  net.SplitHostPort hostport
  = inl {| net.Err := net.missingPort; net.Addr := hostport |}.
Proof.
  intros H. unfold net.SplitHostPort.
  rewrite (LastIndex_none _ _ H). reflexivity.
Qed.

(** X27. When the host of the configured URL holds no colon, that is
    names no port, the health probe answers 500 for a bad host and port,
    whatever a dial would give. *)
Theorem health_needs_port (nw : Network) (u : DeviceServer)
    (r : http.Request) (W : Type) `{!http.ResponseWriter W} (w : W)
    (parsed : url.URL) :
  net_url_Parse nw (scytaleUrl u) = inr parsed ->
  net.IndexByteString (url.Host parsed) ":" = None ->
  exec (HealthCheckHandler nw u W _ r) (start w)
  = {| rw := http.Error "Health check failed: invalid Scytale host/port"
               http.StatusInternalServerError w;
       trace :=
         [EvLog (zap.entry (log u) zap.ErrorLevel
                   "Failed to extract host and port from Scytale URL"
                   [zap.Error
                      (ErrorString
                         (net.AddrError_Error
                            {| net.Err := "missing port in address";
                               net.Addr := url.Host parsed |}))])] |}.
Proof.
  intros Hparse Hcolon. unfold_health.
  rewrite Hparse, (SplitHostPort_no_colon _ Hcolon). reflexivity.
Qed.

(** X28. For a URL whose host part splits and does not open with a
    bracket, the address the probe dials is that host part itself, and
    the probe answers 200 or 503 as that dial succeeds or fails. *)
Theorem health_dials_url_host (nw : Network) (u : DeviceServer)
    (r : http.Request) (parsed : url.URL) (host port : string) :
  let st := exec (HealthCheckHandler nw u http.response _ r)
              (start http.fresh) in
  let dial := net_DialTimeout nw "tcp" (url.Host parsed) (2 * time.Second) in
  net_url_Parse nw (scytaleUrl u) = inr parsed ->
  net.SplitHostPort (url.Host parsed) = inr (host, port) ->
  String.get 0 (url.Host parsed) <> Some "["%char ->
  net.JoinHostPort host port = url.Host parsed
  /\ (dial = None -> http.status (rw st) = Some 200%Z)
  /\ (forall err, dial = Some err ->
        http.status (rw st) = Some 503%Z
        /\ logged (trace st)
           = [zap.entry (log u) zap.ErrorLevel "Failed to connect to Scytale"
                [zap.String_ "host" host; zap.String_ "port" port;
                 zap.Error err]]).
Proof.
  intros st dial Hparse Hsplit H0. subst st dial.
  destruct (SplitHostPort_plain _ _ _ H0 Hsplit) as [_ Hjoin].
  split; [exact Hjoin|]. unfold_health.
  rewrite Hparse, Hsplit, Hjoin. split.
  - intros ->. reflexivity.
  - intros err ->. split; reflexivity.
Qed.

(** ** The further theorems at work on the bench *)

Lemma unreadable_body_is_400_witness :
  rw (exec (PostCallHandler Bench.ext Bench.answering Bench.uuid
              http.response _
              (with_body (Bench.request Bench.deviceID "") Bench.broken))
        (start http.fresh))
  = http.Error "Failed to read request body" 400 http.fresh.
Proof.
  refine (f_equal rw
            (unreadable_body_is_400 Bench.ext Bench.answering Bench.uuid
               (with_body (Bench.request Bench.deviceID "") Bench.broken)
               http.response http.fresh (ErrorString "unexpected EOF") _ _)).
  - vm_compute; reflexivity.
  - vm_compute; reflexivity.
Defined.

Lemma body_beyond_limit_unread_witness :
  exec (PostCallHandler Bench.ext Bench.answering Bench.uuid http.response _
          (with_body (Bench.request Bench.deviceID Bench.full)
             {| io.data :=
                  io.data (http.Body (Bench.request Bench.deviceID Bench.full))
                  ++ "}";
                io.failure := Some (ErrorString "unexpected EOF") |}))
    (start http.fresh)
  = exec (PostCallHandler Bench.ext Bench.answering Bench.uuid http.response _
            (Bench.request Bench.deviceID Bench.full)) (start http.fresh).
Proof.
  apply body_beyond_limit_unread. vm_compute. reflexivity.
Defined.

Lemma blank_body_is_400_witness :
  rw (Bench.run Bench.answering (Bench.request Bench.deviceID "  "))
  = http.Error "Failed to parse JSON" 400 http.fresh.
Proof.
  refine (f_equal rw
            (blank_body_is_400 Bench.ext Bench.answering Bench.uuid
               (Bench.request Bench.deviceID "  ")
               http.response http.fresh _ _ _)).
  - vm_compute; reflexivity.
  - vm_compute; reflexivity.
  - vm_compute; reflexivity.
Defined.

Lemma string_id_is_kept_witness :
  marshalled (trace (Bench.run Bench.answering
                       (Bench.request Bench.deviceID Bench.body_string_id)))
  = [Some {[ "jsonrpc" := json.AString "2.0";
             "id" := json.AString "abc";
             "method" := json.AString "x" ]}].
Proof.
  refine (proj1 (string_id_is_kept Bench.ext Bench.answering Bench.uuid
                   (Bench.request Bench.deviceID Bench.body_string_id)
                   http.response http.fresh
                   {[ "jsonrpc" := json.AString "2.0";
                      "id" := json.AString "abc";
                      "method" := json.AString "x" ]}
                   "2.0" "abc" _ _ _ _ _ _)).
  - vm_compute; reflexivity.
  - vm_compute; reflexivity.
  - vm_compute; reflexivity.
  - vm_compute; reflexivity.
  - vm_compute; reflexivity.
  - discriminate.
Defined.

Lemma only_id_is_set_witness :
  exists m',
    marshalled (trace (Bench.run Bench.answering
                         (Bench.request Bench.deviceID Bench.body_no_id)))
    = [Some m']
    /\ m' !! "method" = Some (json.AString "x").
Proof.
  destruct (only_id_is_set Bench.ext Bench.answering Bench.uuid
              (Bench.request Bench.deviceID Bench.body_no_id)
              http.response http.fresh
              {[ "jsonrpc" := json.AString "2.0";
                 "method" := json.AString "x" ]})
    as (m' & Hm & _ & Hrest & _).
  - vm_compute; reflexivity.
  - vm_compute; reflexivity.
  - vm_compute; reflexivity.
  - exists m'. split; [exact Hm|].
    rewrite (Hrest "method") by discriminate. vm_compute; reflexivity.
Defined.

Lemma null_body_is_forwarded_witness :
  marshalled (trace (Bench.run Bench.answering
                       (Bench.request Bench.deviceID Bench.body_null)))
  = [None].
Proof.
  refine (proj1 (proj2 (null_body_is_forwarded Bench.ext Bench.answering
                          Bench.uuid
                          (Bench.request Bench.deviceID Bench.body_null)
                          http.response http.fresh _ _ _))).
  - vm_compute; reflexivity.
  - vm_compute; reflexivity.
  - vm_compute; reflexivity.
Defined.

Lemma marshal_failure_is_500_witness :
  rw (exec (PostCallHandler Bench.ext_no_marshal Bench.answering Bench.uuid
              http.response _ (Bench.request Bench.deviceID "{}"))
        (start http.fresh))
  = http.Error "Failed to marshal JSON" 500 http.fresh.
Proof.
  refine (proj1 (marshal_failure_is_500 Bench.ext_no_marshal Bench.answering
                   Bench.uuid (Bench.request Bench.deviceID "{}")
                   http.response http.fresh (Some ∅)
                   (ErrorString "json: unsupported value") _ _)).
  - vm_compute; constructor.
  - reflexivity.
Defined.

Lemma encode_failure_is_500_witness :
  rw (exec (PostCallHandler Bench.ext_no_encode Bench.answering Bench.uuid
              http.response _ (Bench.request Bench.deviceID "{}"))
        (start http.fresh))
  = http.Error "Failed to encode WRP Msgpack" 500 http.fresh.
Proof.
  refine (proj1 (encode_failure_is_500 Bench.ext_no_encode Bench.answering
                   Bench.uuid (Bench.request Bench.deviceID "{}")
                   http.response http.fresh Bench.envelope
                   (ErrorString "msgpack: encode failed") _ _)).
  - vm_compute; constructor.
  - reflexivity.
Defined.

Lemma bad_backend_url_is_503_witness :
  rw (exec (PostCallHandler Bench.ext_no_url
              (fst (NewDeviceServer Bench.Client_Do Bench.logger
                      "scytale:6300" "dXNlcjpwYXNz"))
              Bench.uuid http.response _ (Bench.request Bench.deviceID "{}"))
        (start http.fresh))
  = http.Error "Failed to post to Scytale" 503 http.fresh.
Proof.
  refine (proj1 (proj2 (bad_backend_url_is_503 Bench.Client_Do Bench.logger
                          "scytale:6300" "dXNlcjpwYXNz" Bench.ext_no_url
                          Bench.uuid (Bench.request Bench.deviceID "{}")
                          http.response http.fresh
                          (ErrorString "parse: missing protocol scheme")
                          Bench.envelope "{...}" _ _ _))).
  - reflexivity.
  - vm_compute; constructor.
  - reflexivity.
Defined.

Lemma transport_failure_is_503_witness :
  rw (Bench.run Bench.unreachable (Bench.request Bench.deviceID "{}"))
  = http.Error "Failed to post to Scytale" 503 http.fresh.
Proof.
  refine (proj1 (transport_failure_is_503 Bench.ext Bench.unreachable
                   Bench.uuid (Bench.request Bench.deviceID "{}")
                   http.response http.fresh Bench.posted Bench.refusing _ _)).
  - vm_compute; constructor.
  - reflexivity.
Defined.

Lemma outbound_request_shape_witness :
  backend_calls (trace (Bench.run Bench.answering
                          (Bench.request Bench.deviceID "{}")))
  = [Bench.posted].
Proof.
  refine (proj2 (proj2 (proj2 (proj2
            (outbound_request_shape Bench.ext Bench.answering Bench.uuid
               (Bench.request Bench.deviceID "{}") http.response http.fresh
               Bench.posted _))))).
  vm_compute; constructor.
Defined.

Lemma envelope_shape_witness :
  envelopes (trace (Bench.run Bench.answering
                      (Bench.request Bench.deviceID "{}")))
  = [Bench.envelope].
Proof.
  refine (proj2 (proj2 (proj2
            (envelope_shape Bench.ext Bench.answering Bench.uuid
               (Bench.request Bench.deviceID "{}") http.response http.fresh
               Bench.envelope _)))).
  vm_compute; constructor.
Defined.

Lemma ok_only_with_payload_witness :
  exists req,
    backend_calls (trace (Bench.run Bench.answering
                            (Bench.request Bench.deviceID "{}")))
    = [req].
Proof.
  destruct (ok_only_with_payload Bench.ext Bench.answering Bench.uuid
              (Bench.request Bench.deviceID "{}"))
    as (req & _ & _ & Hcalls & _).
  - vm_compute; reflexivity.
  - exists req. exact Hcalls.
Defined.

Lemma responseWriter_forwards_witness :
  let cs := [CallHeaderSet "Content-Type" "application/json";
             CallWriteHeader 404; CallWrite "{}"] in
  let out := calls cs {| ResponseWriter := http.fresh;
                         statusCode := http.StatusOK |} in
  ResponseWriter out = calls cs http.fresh /\ statusCode out = 404%Z.
Proof.
  intros cs out. subst cs out.
  refine (responseWriter_forwards http.response _ http.fresh http.StatusOK _ _).
  - discriminate.
  - repeat constructor; discriminate.
Defined.






Lemma split_of_join_witness :
  net.SplitHostPort (net.JoinHostPort "::1" "6300") = inr ("::1", "6300").
Proof.
  refine (split_of_join "::1" "6300" _ _ _ _ _); reflexivity.
Defined.

Lemma join_of_split_witness :
  ("[::1]:6300" = "::1" ++ ":" ++ "6300"
   /\ net.JoinHostPort "::1" "6300" = "[::1]:6300")
  \/ ("[::1]:6300" = "[" ++ "::1" ++ "]:" ++ "6300"
      /\ net.JoinHostPort "::1" "6300"
         = match net.IndexByteString "::1" ":" with
           | Some _ => "[::1]:6300"
           | None => "::1" ++ ":" ++ "6300"
           end).
Proof.
  refine (join_of_split "[::1]:6300" "::1" "6300" _). reflexivity.
Defined.

Lemma health_needs_port_witness :
  rw (exec (HealthCheckHandler (Bench.network None) Bench.portless
              http.response _ (Bench.request Bench.deviceID ""))
        (start http.fresh))
  = http.Error "Health check failed: invalid Scytale host/port" 500
      http.fresh.
Proof.
  refine (f_equal rw
            (health_needs_port (Bench.network None) Bench.portless
               (Bench.request Bench.deviceID "") http.response http.fresh
               {| url.Host := "scytale" |} _ _)).
  - reflexivity.
  - reflexivity.
Defined.

Lemma health_dials_url_host_witness :
  http.status
    (rw (exec (HealthCheckHandler (Bench.network None) Bench.answering
                 http.response _ (Bench.request Bench.deviceID ""))
           (start http.fresh)))
  = Some 200%Z.
Proof.
  refine (proj1 (proj2
            (health_dials_url_host (Bench.network None) Bench.answering
               (Bench.request Bench.deviceID "")
               {| url.Host := "scytale:6300" |} "scytale" "6300" _ _ _)) _).
  - reflexivity.
  - reflexivity.
  - discriminate.
  - reflexivity.
Defined.

Lemma same_decoding_same_run_witness :
  Bench.run Bench.answering (Bench.request Bench.deviceID Bench.body_odd)
  = Bench.run Bench.answering (Bench.put Bench.deviceID Bench.body_even).
Proof.
  refine (same_decoding_same_run Bench.ext Bench.answering Bench.uuid
            (Bench.request Bench.deviceID Bench.body_odd)
            (Bench.put Bench.deviceID Bench.body_even)
            http.response http.fresh _ _ _ _ _).
  - vm_compute; reflexivity.
  - vm_compute; reflexivity.
  - vm_compute; reflexivity.
  - vm_compute; reflexivity.
  - vm_compute; reflexivity.
Defined.
